(** * Validator of the LLM-defender subnet: scoring, target selection, state

    A shallow embedding of [llm_defender/core/validators/validator.py]
    (class [PromptInjectionValidator]) and the properties of it that the
    design document states.

    Conventions of the embedding.
    - Python floats are exact rationals ([Q]); equality of computed floats is
      [Qeq] ([==]).  Integers are [Z], positions in lists are [nat].
    - A method that may raise returns a [result]; a method that mutates [self]
      takes the validator and returns it next to its result, so that what was
      assigned before a raise is still seen afterwards.
    - Dicts are [gmap]s; tensors are lists. *)

From Stdlib Require Import QArith Qminmax Lqa ZArith Lia.
From stdpp Require Import gmap strings list fin_maps pretty.

Local Open Scope Z_scope.

(** ** Exceptions and results *)

Inductive exn : Set :=
| IndexError
| ValueError
| KeyError
| TypeError
| ZeroDivisionError
| OSError
| UnpicklingError.

Inductive result (A : Type) : Type :=
| Ok (a : A)
| Raise (e : exn).
Arguments Ok {A} a.
Arguments Raise {A} e.

Global Instance result_ret : MRet result := fun A a => Ok a.
Global Instance result_bind : MBind result := fun A B f r =>
  match r with
  | Ok a => f a
  | Raise e => Raise e
  end.

(** [[f x for x in l]] where [f] may raise: the first raise wins. *)
Fixpoint comprehension {A B} (f : A -> result B) (l : list A) : result (list B) :=
  match l with
  | [] => Ok []
  | x :: l' => y ← f x; ys ← comprehension f l'; Ok (y :: ys)
  end.

(** [l[i]] for a non-negative [i]. *)
Definition getitem {A} (l : list A) (i : nat) : result A :=
  match l !! i with
  | Some a => Ok a
  | None => Raise IndexError
  end.

(** [l.index(x)]: the first position of [x], [ValueError] when absent. *)
Fixpoint index {A} `{EqDecision A} (x : A) (l : list A) : result nat :=
  match l with
  | [] => Raise ValueError
  | y :: l' => if decide (y = x) then Ok 0%nat else i ← index x l'; Ok (S i)
  end.

(** [l[start:stop]] with Python's treatment of negative and oversized bounds. *)
Definition slice_bound (n i : Z) : Z :=
  if i <? 0 then Z.max 0 (i + n) else Z.min i n.

Definition slice {A} (l : list A) (start stop : Z) : list A :=
  let n := Z.of_nat (length l) in
  let s := slice_bound n start in
  let e := slice_bound n stop in
  take (Z.to_nat (e - s)) (drop (Z.to_nat s) l).

(** ** Floats *)

Local Open Scope Q_scope.

(** [x < y] and [x >= y] on floats, as tests. *)
Definition Qlt_bool (x y : Q) : bool := negb (Qle_bool y x).
Definition Qge_bool (x y : Q) : bool := Qle_bool y x.

(** ** The registry, as bittensor's metagraph presents it

    The metagraph class belongs to the bittensor library.  What the validator
    reads of it are per-neuron columns ([uids], [hotkeys], [total_stake],
    [axons]), which the library derives from one list of neurons; [S] is the
    library's short name of [total_stake]. *)

Record AxonInfo : Type := { ip : string; hotkey : string }.

Record NeuronInfo : Type := {
  uid : nat;
  stake : Q;
  axon_info : AxonInfo
}.

Module Metagraph.
Record t : Type := { neurons : list NeuronInfo }.

Definition uids (m : t) : list nat := uid <$> neurons m.
Definition axons (m : t) : list AxonInfo := axon_info <$> neurons m.
Definition hotkeys (m : t) : list string := hotkey <$> axons m.
Definition total_stake (m : t) : list Q := stake <$> neurons m.
Definition S (m : t) : list Q := total_stake m.
End Metagraph.

(** ** The validator object *)

(** One stored answer of a miner; only its presence matters here. *)
Record Response : Type := {
  response_prompt : string;
  response_confidence : Q;
  response_synapse_uuid : string
}.

Record Validator : Type := {
  timeout : Q;
  metagraph : Metagraph.t;
  scores : list Q;
  hotkeys : option (list string);
  miner_responses : option (gmap string (list Response));
  max_targets : Z;
  target_group : Z;
  blacklisted_miner_hotkeys : option (list string);
  step : Z;
  last_updated_block : Z;
  base_path : string
}.

Definition set_scores (self : Validator) (v : list Q) : Validator :=
  {| timeout := timeout self; metagraph := metagraph self; scores := v;
     hotkeys := hotkeys self; miner_responses := miner_responses self;
     max_targets := max_targets self; target_group := target_group self;
     blacklisted_miner_hotkeys := blacklisted_miner_hotkeys self;
     step := step self; last_updated_block := last_updated_block self;
     base_path := base_path self |}.

Definition set_hotkeys (self : Validator) (v : option (list string)) : Validator :=
  {| timeout := timeout self; metagraph := metagraph self; scores := scores self;
     hotkeys := v; miner_responses := miner_responses self;
     max_targets := max_targets self; target_group := target_group self;
     blacklisted_miner_hotkeys := blacklisted_miner_hotkeys self;
     step := step self; last_updated_block := last_updated_block self;
     base_path := base_path self |}.

Definition set_target_group (self : Validator) (v : Z) : Validator :=
  {| timeout := timeout self; metagraph := metagraph self; scores := scores self;
     hotkeys := hotkeys self; miner_responses := miner_responses self;
     max_targets := max_targets self; target_group := v;
     blacklisted_miner_hotkeys := blacklisted_miner_hotkeys self;
     step := step self; last_updated_block := last_updated_block self;
     base_path := base_path self |}.

Definition set_blacklisted_miner_hotkeys (self : Validator)
    (v : option (list string)) : Validator :=
  {| timeout := timeout self; metagraph := metagraph self; scores := scores self;
     hotkeys := hotkeys self; miner_responses := miner_responses self;
     max_targets := max_targets self; target_group := target_group self;
     blacklisted_miner_hotkeys := v;
     step := step self; last_updated_block := last_updated_block self;
     base_path := base_path self |}.

Definition set_step (self : Validator) (v : Z) : Validator :=
  {| timeout := timeout self; metagraph := metagraph self; scores := scores self;
     hotkeys := hotkeys self; miner_responses := miner_responses self;
     max_targets := max_targets self; target_group := target_group self;
     blacklisted_miner_hotkeys := blacklisted_miner_hotkeys self;
     step := v; last_updated_block := last_updated_block self;
     base_path := base_path self |}.

Definition set_last_updated_block (self : Validator) (v : Z) : Validator :=
  {| timeout := timeout self; metagraph := metagraph self; scores := scores self;
     hotkeys := hotkeys self; miner_responses := miner_responses self;
     max_targets := max_targets self; target_group := target_group self;
     blacklisted_miner_hotkeys := blacklisted_miner_hotkeys self;
     step := step self; last_updated_block := v;
     base_path := base_path self |}.

(** ** Scoring *)

(** [calculate_subscore_speed]: a response slower than the timeout counts as
    taking exactly the timeout. *)
Definition calculate_subscore_speed (self : Validator) (hotkey : string)
    (response_time : Q) : result Q :=
  let response_time :=
    if Qlt_bool (timeout self) response_time then timeout self else response_time in
  if Qeq_bool (timeout self) 0 then Raise ZeroDivisionError
  else Ok (1 - response_time / timeout self).

Section Collaborators.
(** The three penalty checks of [llm_defender.core.validators.penalty] are
    outside this file's sources; they are taken as they come. *)
Variable similarity_check_penalty : nat -> list Response -> Q.
Variable base_check_penalty : nat -> list Response -> Response -> string -> Q.
Variable duplicate_check_penalty : nat -> list Response -> Response -> Q.

(** [apply_penalty] *)
Definition apply_penalty (self : Validator) (response : Response)
    (hotkey : string) (prompt : string) : result (Q * Q * Q) :=
  match miner_responses self with
  | None => Ok (5, 5, 5)
  | Some responses =>
      if decide (responses = ∅) then Ok (5, 5, 5)
      else match responses !! hotkey with
      | None => Ok (5, 5, 5)
      | Some history =>
          uid ← index hotkey (Metagraph.hotkeys (metagraph self));
          let similarity := 0 + similarity_check_penalty uid history in
          let base := 0 + base_check_penalty uid history response prompt in
          let duplicate := 0 + duplicate_check_penalty uid history response in
          Ok (similarity, base, duplicate)
      end
  end.

(** The arithmetic of [get_response_penalties], from the three penalties
    to the two multipliers. *)
Definition penalty_multipliers (similarity_penalty base_penalty duplicate_penalty : Q)
    : Q * Q :=
  let distance_penalty_multiplier :=
    if Qge_bool base_penalty 20 then 0
    else if Qlt_bool 0 base_penalty then 1 - ((base_penalty / 2) / 10)
    else 1 in
  let speed_penalty :=
    if Qge_bool (0 + similarity_penalty + duplicate_penalty) 20 then 0
    else if Qlt_bool 0 (0 + similarity_penalty + duplicate_penalty)
         then 1 - (((0 + similarity_penalty + duplicate_penalty) / 2) / 10)
    else 1 in
  (distance_penalty_multiplier, speed_penalty).

(** [get_response_penalties] *)
Definition get_response_penalties (self : Validator) (response : Response)
    (hotkey : string) (prompt : string) : result (Q * Q) :=
  '(similarity_penalty, base_penalty, duplicate_penalty) ←
      apply_penalty self response hotkey prompt;
  Ok (penalty_multipliers similarity_penalty base_penalty duplicate_penalty).


(** [calculate_penalized_scores]; [score_weights] is a dict. *)
Definition calculate_penalized_scores (score_weights : gmap string Q)
    (distance_score speed_score distance_penalty speed_penalty : Q)
    : result (Q * Q * Q) :=
  match score_weights !! "distance" with
  | None => Raise KeyError
  | Some distance_weight =>
      let final_distance_score :=
        (distance_weight * distance_score) * distance_penalty in
      match score_weights !! "speed" with
      | None => Raise KeyError
      | Some speed_weight =>
          let final_speed_score := (speed_weight * speed_score) * speed_penalty in
          let total_score := final_distance_score + final_speed_score in
          Ok (total_score, final_distance_score, final_speed_score)
      end
  end.

(** Modelled from the spec: [validate_numerical_value] of
    [llm_defender.base.utils], called as
    [validate_numerical_value(value, float, 0.0, 1.0)].  The design document
    has the subscores and the total "lie in [0,1]" or else the response is
    zeroed, so the check is that of the closed interval. *)
Definition validate_numerical_value (value min_value max_value : Q) : bool :=
  Qle_bool min_value value && Qle_bool value max_value.

(** Modelled from the spec: [get_engine_response_object] of
    [llm_defender.core.validators.scoring.process], which builds the
    ScoreResult ("total, weighted distance, weighted speed, both penalty
    multipliers, both raw subscores"); called without arguments it is the
    "zero/empty" result. *)
Record ScoreResult : Type := {
  total_score : Q;
  final_distance_score : Q;
  final_speed_score : Q;
  distance_penalty : Q;
  speed_penalty : Q;
  raw_distance_score : Q;
  raw_speed_score : Q
}.

Definition get_engine_response_object (total final_distance final_speed
    distance_pen speed_pen raw_distance raw_speed : Q) : ScoreResult :=
  {| total_score := total; final_distance_score := final_distance;
     final_speed_score := final_speed; distance_penalty := distance_pen;
     speed_penalty := speed_pen; raw_distance_score := raw_distance;
     raw_speed_score := raw_speed |}.

Definition get_engine_response_object_default : ScoreResult :=
  get_engine_response_object 0 0 0 0 0 0 0.

(** The two subscore functions of [scoring.process]; [None] is Python's. *)
Variable process_calculate_subscore_distance : Response -> Q -> option Q.
Variable process_calculate_subscore_speed : Q -> Q -> option Q.

Definition score_weights : gmap string Q :=
  {[ "distance" := 0.85; "speed" := 0.15 ]}.

(** [calculate_score] *)
Definition calculate_score (self : Validator) (response : Response) (target : Q)
    (prompt : string) (response_time : Q) (hotkey : string) : result ScoreResult :=
  let distance_score :=
    default 0 (process_calculate_subscore_distance response target) in
  let speed_score :=
    default 0 (process_calculate_subscore_speed (timeout self) response_time) in
  if negb (validate_numerical_value distance_score 0 1)
     || negb (validate_numerical_value speed_score 0 1)
  then Ok get_engine_response_object_default
  else
    '(distance_penalty, speed_penalty) ←
        get_response_penalties self response hotkey prompt;
    '(total_score, final_distance_score, final_speed_score) ←
        calculate_penalized_scores score_weights distance_score speed_score
          distance_penalty speed_penalty;
    if negb (validate_numerical_value total_score 0 1)
       || negb (validate_numerical_value final_distance_score 0 1)
       || negb (validate_numerical_value final_speed_score 0 1)
    then Ok get_engine_response_object_default
    else Ok (get_engine_response_object total_score final_distance_score
               final_speed_score distance_penalty speed_penalty
               distance_score speed_score).

End Collaborators.

(** ** Membership changes of the registry *)

(** [init_default_scores]: [torch.zeros_like(self.metagraph.S)]. *)
Definition init_default_scores (self : Validator) : Validator :=
  set_scores self (replicate (length (Metagraph.S (metagraph self))) 0).

(** [enumerate(l)] *)
Definition enumerate {A} (l : list A) : list (nat * A) := imap pair l.

(** The loop of [check_hotkeys] over [enumerate(current_hotkeys)]:
    [self.scores[i] = 0.0] where the stored hotkey differs.  Both
    subscripts raise out of range; the scores reset so far stay reset. *)
Fixpoint reset_replaced (old_hotkeys : list string) (entries : list (nat * string))
    (scores : list Q) : result unit * list Q :=
  match entries with
  | [] => (Ok (), scores)
  | (i, hotkey) :: rest =>
      match old_hotkeys !! i with
      | None => (Raise IndexError, scores)
      | Some old =>
          if decide (old ≠ hotkey) then
            if decide (i < length scores)%nat
            then reset_replaced old_hotkeys rest (<[i := 0]> scores)
            else (Raise IndexError, scores)
          else reset_replaced old_hotkeys rest scores
      end
  end.

(** [check_hotkeys]; [if self.hotkeys:] holds of a non-empty list only. *)
Definition check_hotkeys (self : Validator) : result unit * Validator :=
  let current_hotkeys := Metagraph.hotkeys (metagraph self) in
  match hotkeys self with
  | Some ((_ :: _) as old_hotkeys) =>
      if decide (length old_hotkeys = length current_hotkeys) then
        match reset_replaced old_hotkeys (enumerate current_hotkeys) (scores self) with
        | (Ok _, scores') =>
            (Ok (), set_hotkeys (set_scores self scores') (Some current_hotkeys))
        | (Raise e, scores') => (Raise e, set_scores self scores')
        end
      else
        (Ok (), set_hotkeys (init_default_scores self) (Some current_hotkeys))
  | _ => (Ok (), set_hotkeys self (Some current_hotkeys))
  end.

(** ** The saved state *)

(** What [torch.save] writes in [save_state]: a dict of five keys.  A file
    read back may lack any of them (the blacklist key is absent from files of
    earlier versions); a key that is there holds what [save_state] put. *)
Record StateDict : Type := {
  sd_step : option Z;
  sd_scores : option (list Q);
  sd_hotkeys : option (option (list string));
  sd_last_updated_block : option Z;
  sd_blacklisted_miner_hotkeys : option (option (list string))
}.

(** A file, by what [torch.load] makes of it. *)
Inductive File : Type :=
| Garbage (raw : string)
| PickledOther (raw : string)
| PickledState (d : StateDict).

(** [torch.load]: raises on what is no pickle; [None] stands for an object
    that is not a dict, which every subscript rejects. *)
Definition torch_load (f : File) : result (option StateDict) :=
  match f with
  | Garbage _ => Raise UnpicklingError
  | PickledOther _ => Ok None
  | PickledState d => Ok (Some d)
  end.

(** [state[key]] *)
Definition state_getitem {A} (state : option StateDict)
    (key : StateDict -> option A) : result A :=
  match state with
  | None => Raise TypeError
  | Some d => match key d with Some v => Ok v | None => Raise KeyError end
  end.

(** [os.rename] *)
Definition rename (fs : gmap string File) (src dst : string)
    : result (gmap string File) :=
  match fs !! src with
  | Some f => Ok (<[dst := f]> (delete src fs))
  | None => Raise OSError
  end.

(** The path a state file is moved to,
    [f"{state_path}-{int(datetime.now().timestamp())}.autorecovery"]. *)
Definition autorecovery_path (state_path : string) (now : Z) : string :=
  state_path +:+ "-" +:+ pretty now +:+ ".autorecovery".

(** [reset_validator_state] *)
Definition reset_validator_state (self : Validator) (fs : gmap string File)
    (state_path : string) (now : Z) : result unit * Validator * gmap string File :=
  match rename fs state_path (autorecovery_path state_path now) with
  | Raise e => (Raise e, self, fs)
  | Ok fs' =>
      let self := init_default_scores self in
      let self := set_step self 0 in
      let self := set_last_updated_block self 0 in
      let self := set_hotkeys self None in
      let self := set_blacklisted_miner_hotkeys self None in
      (Ok (), self, fs')
  end.

(** The body of the [try] in [load_state]; each assignment made before a
    raise is kept. *)
Definition load_state_try (self : Validator) (file : File) : result unit * Validator :=
  match torch_load file with
  | Raise e => (Raise e, self)
  | Ok state =>
  match state_getitem state sd_step with
  | Raise e => (Raise e, self)
  | Ok v => let self := set_step self v in
  match state_getitem state sd_scores with
  | Raise e => (Raise e, self)
  | Ok v => let self := set_scores self v in
  match state_getitem state sd_hotkeys with
  | Raise e => (Raise e, self)
  | Ok v => let self := set_hotkeys self v in
  match state_getitem state sd_last_updated_block with
  | Raise e => (Raise e, self)
  | Ok v => let self := set_last_updated_block self v in
  match state_getitem state sd_blacklisted_miner_hotkeys with
  | Raise _ => (Ok (), self)
  | Ok v => (Ok (), set_blacklisted_miner_hotkeys self v)
  end end end end end end.

Definition state_path (self : Validator) : string := base_path self +:+ "/state.pt".

(** [load_state]; [now] is the clock read when the file has to be moved. *)
Definition load_state (self : Validator) (fs : gmap string File) (now : Z)
    : result unit * Validator * gmap string File :=
  match fs !! state_path self with
  | Some file =>
      match load_state_try self file with
      | (Ok _, self') => (Ok (), self', fs)
      | (Raise _, self') => reset_validator_state self' fs (state_path self) now
      end
  | None => (Ok (), init_default_scores self, fs)
  end.

(** The files on which the [try] of [load_state] raises: what [torch.load]
    rejects, what is no dict, and a dict without one of the four keys that
    are read unconditionally. *)
Definition corrupted (file : File) : Prop :=
  match file with
  | Garbage _ | PickledOther _ => True
  | PickledState d =>
      sd_step d = None \/ sd_scores d = None \/ sd_hotkeys d = None \/
      sd_last_updated_block d = None
  end.

(** ** The blacklist *)

(** [check_blacklisted_miner_hotkeys], given what
    [_get_local_miner_blacklist] and [_get_remote_miner_blacklist] returned:
    [[item["hotkey"] for item in miner_blacklist if "hotkey" in item]]. *)
Definition check_blacklisted_miner_hotkeys (self : Validator)
    (local_miner_blacklist remote_miner_blacklist : list (gmap string string))
    : Validator :=
  let miner_blacklist := local_miner_blacklist ++ remote_miner_blacklist in
  set_blacklisted_miner_hotkeys self
    (Some (omap (fun item : gmap string string => item !! "hotkey") miner_blacklist)).

(** ** Target selection *)

(** Boolean tensors: [~a], [a | b] and [torch.logical_not(a)].  The masks
    combined below are all built over the neurons of one metagraph, so their
    shapes agree. *)
Definition tensor_invert (a : list bool) : list bool := negb <$> a.
Definition tensor_or (a b : list bool) : list bool := zip_with orb a b.
Definition logical_not (a : list bool) : list bool := negb <$> a.

(** [self.metagraph.total_stake >= 0.0] *)
Definition uids_with_stake (m : Metagraph.t) : list bool :=
  (fun s => Qge_bool s 0) <$> Metagraph.total_stake m.

(** The tensor the source names [invalid_uids]: true where the axon's IP is
    not ["0.0.0.0"]. *)
Definition invalid_uids (m : Metagraph.t) : result (list bool) :=
  comprehension
    (fun uid => n ← getitem (Metagraph.neurons m) uid;
                Ok (bool_decide (ip (axon_info n) ≠ "0.0.0.0")))
    (Metagraph.uids m).

(** The loop that fills [blacklisted_uids]. *)
Fixpoint collect_blacklisted_uids (metagraph_hotkeys blacklist : list string)
    : result (list nat) :=
  match blacklist with
  | [] => Ok []
  | hotkey :: rest =>
      if decide (hotkey ∈ metagraph_hotkeys) then
        i ← index hotkey metagraph_hotkeys;
        uids ← collect_blacklisted_uids metagraph_hotkeys rest;
        Ok (i :: uids)
      else collect_blacklisted_uids metagraph_hotkeys rest
  end.

(** [blacklisted_uids]; [if self.blacklisted_miner_hotkeys:] holds of a
    non-empty list only. *)
Definition blacklisted_uids (self : Validator) : result (list nat) :=
  match blacklisted_miner_hotkeys self with
  | Some ((_ :: _) as blacklist) =>
      collect_blacklisted_uids (Metagraph.hotkeys (metagraph self)) blacklist
  | _ => Ok []
  end.

(** [blacklisted_uids_tensor]: true where the uid is not blacklisted. *)
Definition blacklisted_uids_tensor (m : Metagraph.t) (blacklisted : list nat)
    : list bool :=
  (fun uid => bool_decide (uid ∉ blacklisted)) <$> Metagraph.uids m.

(** [uids_to_filter], the keep mask, in the source's double negation. *)
Definition uids_to_filter (blacklisted_tensor invalid with_stake : list bool)
    : list bool :=
  logical_not
    (tensor_or (tensor_or (tensor_invert blacklisted_tensor) (tensor_invert invalid))
               (tensor_invert with_stake)).

(** [[axon for axon, keep_flag in zip(all_axons, mask) if keep_flag.item()]]
    and its complement. *)
Definition axons_where (flag : bool) (all_axons : list AxonInfo) (mask : list bool)
    : list AxonInfo :=
  fst <$> filter (fun p : AxonInfo * bool => p.2 = flag) (zip all_axons mask).

(** [[self.metagraph.hotkeys.index(axon.hotkey) for axon in axons]] *)
Definition uids_of (m : Metagraph.t) (axons : list AxonInfo) : result (list nat) :=
  comprehension (fun axon => index (hotkey axon) (Metagraph.hotkeys m)) axons.

(** The first half of [get_uids_to_query], down to the pagination: the
    filtered axons, [blacklisted_uids] and [uids_not_to_query]. *)
Definition select_candidates (self : Validator) (all_axons : list AxonInfo)
    : result (list AxonInfo * list nat * list nat) :=
  let m := metagraph self in
  invalid ← invalid_uids m;
  blacklisted ← blacklisted_uids self;
  let mask :=
    uids_to_filter (blacklisted_uids_tensor m blacklisted) invalid (uids_with_stake m) in
  let uids_to_query := axons_where true all_axons mask in
  let final_axons_to_filter := axons_where false all_axons mask in
  uids_not_to_query ← uids_of m final_axons_to_filter;
  Ok (uids_to_query, blacklisted, uids_not_to_query).

(** What [get_uids_to_query] returns: a pair on the empty page, four values
    anywhere else. *)
Inductive QueryTargets : Type :=
| Tuple2 (uids_to_query : list AxonInfo) (list_of_uids : list nat)
| Tuple4 (uids_to_query : list AxonInfo) (list_of_uids : list nat)
         (blacklisted_uids : list nat) (uids_not_to_query : list nat).

Definition start_idx (self : Validator) : Z := max_targets self * target_group self.

Definition end_idx (self : Validator) (uids_to_query : list AxonInfo) : Z :=
  Z.min (Z.of_nat (length uids_to_query))
        (max_targets self * (target_group self + 1)).

(** The last lines of [get_uids_to_query], from [list_of_uids] on. *)
Definition query_targets (self : Validator) (uids_to_query : list AxonInfo)
    (blacklisted uids_not_to_query : list nat) : result QueryTargets * Validator :=
  match uids_of (metagraph self) uids_to_query with
  | Ok list_of_uids =>
      (Ok (Tuple4 uids_to_query list_of_uids blacklisted uids_not_to_query), self)
  | Raise e => (Raise e, self)
  end.

(** [get_uids_to_query] *)
Definition get_uids_to_query (self : Validator) (all_axons : list AxonInfo)
    : result QueryTargets * Validator :=
  match select_candidates self all_axons with
  | Raise e => (Raise e, self)
  | Ok (uids_to_query, blacklisted, uids_not_to_query) =>
      let len := Z.of_nat (length uids_to_query) in
      if (max_targets self <? 256)%Z then
        let start_idx := start_idx self in
        let end_idx := end_idx self uids_to_query in
        if (start_idx =? end_idx)%Z then (Ok (Tuple2 [] []), self)
        else if (start_idx >=? len)%Z then (Raise IndexError, self)
        else
          let '(end_idx, self) :=
            if (end_idx >=? len)%Z then (len, set_target_group self 0)
            else (end_idx, set_target_group self (target_group self + 1)%Z) in
          query_targets self (slice uids_to_query start_idx end_idx)
            blacklisted uids_not_to_query
      else query_targets self uids_to_query blacklisted uids_not_to_query
  end.

(** The axons of a result, whichever its shape. *)
Definition queried (r : QueryTargets) : list AxonInfo :=
  match r with
  | Tuple2 uids_to_query _ => uids_to_query
  | Tuple4 uids_to_query _ _ _ => uids_to_query
  end.

(** What the chain guarantees of a metagraph: the neuron of uid [i] sits at
    position [i], and no two neurons of a subnet share a hotkey. *)
Definition registry_ok (m : Metagraph.t) : Prop :=
  Metagraph.uids m = seq 0 (length (Metagraph.neurons m)) /\
  NoDup (Metagraph.hotkeys m).

(** A validator at rest over an empty registry, to build examples from. *)
Definition idle_validator : Validator :=
  {| timeout := 12; metagraph := {| Metagraph.neurons := [] |}; scores := [];
     hotkeys := None; miner_responses := None; max_targets := 256;
     target_group := 0; blacklisted_miner_hotkeys := None; step := 0;
     last_updated_block := 0; base_path := "/validator" |}.

Definition with_registry (self : Validator) (neurons : list NeuronInfo) : Validator :=
  {| timeout := timeout self; metagraph := {| Metagraph.neurons := neurons |};
     scores := scores self; hotkeys := hotkeys self;
     miner_responses := miner_responses self; max_targets := max_targets self;
     target_group := target_group self;
     blacklisted_miner_hotkeys := blacklisted_miner_hotkeys self;
     step := step self; last_updated_block := last_updated_block self;
     base_path := base_path self |}.

Definition with_max_targets (self : Validator) (v : Z) : Validator :=
  {| timeout := timeout self; metagraph := metagraph self; scores := scores self;
     hotkeys := hotkeys self; miner_responses := miner_responses self;
     max_targets := v; target_group := target_group self;
     blacklisted_miner_hotkeys := blacklisted_miner_hotkeys self;
     step := step self; last_updated_block := last_updated_block self;
     base_path := base_path self |}.

Definition with_miner_responses (self : Validator)
    (v : option (gmap string (list Response))) : Validator :=
  {| timeout := timeout self; metagraph := metagraph self; scores := scores self;
     hotkeys := hotkeys self; miner_responses := v;
     max_targets := max_targets self; target_group := target_group self;
     blacklisted_miner_hotkeys := blacklisted_miner_hotkeys self;
     step := step self; last_updated_block := last_updated_block self;
     base_path := base_path self |}.

Definition neuron (i : nat) (s : Q) (address key : string) : NeuronInfo :=
  {| uid := i; stake := s; axon_info := {| ip := address; hotkey := key |} |}.

Definition example_response : Response :=
  {| response_prompt := "prompt"; response_confidence := 0.5;
     response_synapse_uuid := "uuid" |}.

(** A registry of six: bob has a negative stake, carol no address yet. *)
Definition example_registry : list NeuronInfo :=
  [neuron 0 100 "10.0.0.1" "alice"; neuron 1 (-1) "10.0.0.2" "bob";
   neuron 2 5 "0.0.0.0" "carol"; neuron 3 7 "10.0.0.4" "dave";
   neuron 4 0 "10.0.0.5" "erin"; neuron 5 2 "10.0.0.6" "frank"].

(** A validator over it that queries two miners a round and has dave on
    its blacklist: alice, erin and frank are left to query. *)
Definition example_validator : Validator :=
  with_max_targets
    (set_blacklisted_miner_hotkeys (with_registry idle_validator example_registry)
       (Some ["dave"]))
    2.

Definition example_axons : list AxonInfo :=
  Metagraph.axons (metagraph example_validator).

(** The same validator one round later (the cursor is at 1), after a refresh
    of the blacklist that added frank: alice and erin are left to query. *)
Definition shrunk_validator : Validator :=
  check_blacklisted_miner_hotkeys
    (snd (get_uids_to_query example_validator example_axons))
    [{[ "hotkey" := "dave"; "reason" := "spam" ]}]
    [{[ "hotkey" := "frank"; "reason" := "copies" ]}].

(** ** The rest of the validator's state handling *)

(** [save_state]: [torch.save] of the five attributes under [state.pt]. *)
Definition save_state (self : Validator) (fs : gmap string File) : gmap string File :=
  <[state_path self :=
      PickledState
        {| sd_step := Some (step self);
           sd_scores := Some (scores self);
           sd_hotkeys := Some (hotkeys self);
           sd_last_updated_block := Some (last_updated_block self);
           sd_blacklisted_miner_hotkeys := Some (blacklisted_miner_hotkeys self) |}]> fs.

(** The file of the miner responses, by what [pickle.load] makes of it:
    it raises, or it gives back the object that was dumped. *)
Inductive MinerFile : Type :=
| MinerGarbage (raw : string)
| MinerPickle (responses : option (gmap string (list Response))).

Definition miner_state_path (self : Validator) : string :=
  base_path self +:+ "/miners.pickle".

(** [save_miner_state] *)
Definition save_miner_state (self : Validator) (fs : gmap string MinerFile)
    : gmap string MinerFile :=
  <[miner_state_path self := MinerPickle (miner_responses self)]> fs.

(** [load_miner_state]; the file is moved aside, as in
    [reset_validator_state], when it cannot be read. *)
Definition load_miner_state (self : Validator) (fs : gmap string MinerFile) (now : Z)
    : result unit * Validator * gmap string MinerFile :=
  match fs !! miner_state_path self with
  | Some (MinerPickle responses) => (Ok (), with_miner_responses self responses, fs)
  | Some (MinerGarbage raw) =>
      (Ok (), with_miner_responses self None,
       <[autorecovery_path (miner_state_path self) now := MinerGarbage raw]>
         (delete (miner_state_path self) fs))
  | None => (Ok (), self, fs)
  end.

(** [l[-100:]] *)
Definition last_100 {A} (l : list A) : list A :=
  slice l (-100) (Z.of_nat (length l)).

(** [truncate_miner_state]; [if self.miner_responses:] holds of a non-empty
    dict only. *)
Definition truncate_miner_state (self : Validator) : Validator :=
  match miner_responses self with
  | Some responses =>
      if decide (responses = ∅) then self
      else with_miner_responses self (Some (last_100 <$> responses))
  | None => self
  end.

(** ** Rounds *)

(** The validator calls [get_uids_to_query] once a round.  One rotation:
    rounds are run until the cursor is back at 0 ([fuel] bounds their
    number); the outcome of each round is kept. *)
Fixpoint rotation (fuel : nat) (self : Validator) (all_axons : list AxonInfo)
    : list (result QueryTargets) * Validator :=
  match fuel with
  | O => ([], self)
  | S fuel' =>
      let '(r, self') := get_uids_to_query self all_axons in
      if (target_group self' =? 0)%Z then ([r], self')
      else
        let '(rs, self'') := rotation fuel' self' all_axons in
        (r :: rs, self'')
  end.

(** The axons a round queried; none when it raised. *)
Definition queried_in (r : result QueryTargets) : list AxonInfo :=
  match r with
  | Ok targets => queried targets
  | Raise _ => []
  end.

(** ** The engine data kept of a response *)

(** One entry of [response.output["engines"]]. *)
Record EngineOutput : Type := {
  engine_name : string;
  engine_confidence : Q
}.

(** [[data for data in engines if data["name"] == name]] *)
Definition engines_named (name : string) (engines : list EngineOutput)
    : list EngineOutput :=
  filter (fun data => engine_name data = name) engines.

(** The [engine_data] that [process_responses] stores with a valid
    response: the first entry of each of the three engines, in this order. *)
Definition engine_data (engines : list EngineOutput) : list EngineOutput :=
  let text_class := engines_named "engine:text_classification" engines in
  let vector_search := engines_named "engine:vector_search" engines in
  let yara := engines_named "engine:yara" engines in
  let engine_data := [] in
  let engine_data :=
    match text_class with x :: _ => engine_data ++ [x] | [] => engine_data end in
  let engine_data :=
    match vector_search with x :: _ => engine_data ++ [x] | [] => engine_data end in
  let engine_data :=
    match yara with x :: _ => engine_data ++ [x] | [] => engine_data end in
  engine_data.

(** ** The miner *)

Module Miner.

(** What [LLMDefenderMiner] keeps for the decisions below.
    [validator_permit] is the metagraph's column of that name, which the
    neurons of [Metagraph.t] do not carry; [wallet_hotkey] is
    [self.wallet.hotkey.ss58_address]. *)
Record t : Type := {
  metagraph : Metagraph.t;
  validator_permit : list bool;
  validator_min_stake : Q;
  wallet_hotkey : string;
  hotkey_blacklisted : bool
}.

Definition set_hotkey_blacklisted (self : t) (v : bool) : t :=
  {| metagraph := metagraph self; validator_permit := validator_permit self;
     validator_min_stake := validator_min_stake self;
     wallet_hotkey := wallet_hotkey self; hotkey_blacklisted := v |}.

(** [check_whitelist]; [None] stands for a hotkey that is no [str]. *)
Definition check_whitelist (hotkey : option string) : bool :=
  match hotkey with
  | None => false
  | Some hotkey =>
      let whitelisted_hotkeys :=
        ["5G4gJgvAJCRS6ReaH9QxTCvXAuc4ho5fuobR7CMcHs4PRbbX"] in
      bool_decide (hotkey ∈ whitelisted_hotkeys)
  end.

(** The message that goes with a verdict, by its template and what is
    formatted into it. *)
Inductive Message : Type :=
| AcceptedWhitelisted (hotkey : option string)
| NotFound (hotkey : option string)
| NotAValidator (hotkey : option string)
| InsufficientStake (hotkey : option string) (stake : Q)
| Accepted (hotkey : option string).

(** [blacklist]: [true] rejects the request. *)
Definition blacklist (self : t) (hotkey : option string) : result (bool * Message) :=
  if check_whitelist hotkey then Ok (false, AcceptedWhitelisted hotkey)
  else
    match hotkey with
    | None => Ok (true, NotFound hotkey)
    | Some h =>
        if decide (h ∉ Metagraph.hotkeys (metagraph self))
        then Ok (true, NotFound hotkey)
        else
          uid ← index h (Metagraph.hotkeys (metagraph self));
          permit ← getitem (validator_permit self) uid;
          if negb permit then Ok (true, NotAValidator hotkey)
          else
            stake ← getitem (Metagraph.S (metagraph self)) uid;
            if Qlt_bool stake (validator_min_stake self)
            then Ok (true, InsufficientStake hotkey stake)
            else Ok (false, Accepted hotkey)
    end.

(** [priority] *)
Definition priority (self : t) (hotkey : option string) : result Q :=
  if check_whitelist hotkey then Ok 10000000
  else
    match hotkey with
    | None => Raise ValueError
    | Some h =>
        uid ← index h (Metagraph.hotkeys (metagraph self));
        getitem (Metagraph.S (metagraph self)) uid
    end.

(** What came of the request of [check_remote_blacklist]: an exception of
    [requests], or a response with its status code and, where [res.json()]
    does not raise, its body. *)
Inductive Fetched : Type :=
| RequestFailed
| Response (status_code : Z) (json : option (list (gmap string string))).

(** The loop of [check_remote_blacklist] over the entries; the reason is
    read for the warning where the hotkey is the miner's own. *)
Fixpoint scan_blacklist (own : string) (miner_blacklist : list (gmap string string))
    (is_blacklisted : bool) : result bool :=
  match miner_blacklist with
  | [] => Ok is_blacklisted
  | blacklist_entry :: rest =>
      match blacklist_entry !! "hotkey" with
      | None => Raise KeyError
      | Some h =>
          if decide (h = own) then
            match blacklist_entry !! "reason" with
            | None => Raise KeyError
            | Some _ => scan_blacklist own rest true
            end
          else scan_blacklist own rest is_blacklisted
      end
  end.

Section RemoteBlacklist.
(** [validate_miner_blacklist] of [llm_defender.base.utils] is outside this
    file's sources. *)
Variable validate_miner_blacklist : list (gmap string string) -> bool.

(** [check_remote_blacklist]: every exception ends in a log line. *)
Definition check_remote_blacklist (self : t) (fetched : Fetched) : t :=
  match fetched with
  | RequestFailed => self
  | Response status_code json =>
      if (status_code =? 200)%Z then
        match json with
        | None => self
        | Some miner_blacklist =>
            if validate_miner_blacklist miner_blacklist then
              match scan_blacklist (wallet_hotkey self) miner_blacklist false with
              | Ok is_blacklisted => set_hotkey_blacklisted self is_blacklisted
              | Raise _ => self
              end
            else self
        end
      else self
  end.
End RemoteBlacklist.

End Miner.

(** * Properties *)

(** ** Tests on floats *)

Lemma Qlt_bool_iff x y : Qlt_bool x y = true <-> x < y.
Proof.
  unfold Qlt_bool. rewrite negb_true_iff, <- not_true_iff_false, Qle_bool_iff.
  split; [apply Qnot_le_lt | apply Qlt_not_le].
Qed.

Lemma Qlt_bool_false x y : Qlt_bool x y = false <-> y <= x.
Proof. unfold Qlt_bool. rewrite negb_false_iff. apply Qle_bool_iff. Qed.

Lemma Qge_bool_iff x y : Qge_bool x y = true <-> y <= x.
Proof. apply Qle_bool_iff. Qed.

Lemma Qge_bool_false x y : Qge_bool x y = false <-> x < y.
Proof.
  unfold Qge_bool. rewrite <- not_true_iff_false, Qle_bool_iff.
  split; [apply Qnot_le_lt | apply Qlt_not_le].
Qed.

Lemma validate_numerical_value_iff v lo hi :
  validate_numerical_value v lo hi = true <-> lo <= v <= hi.
Proof.
  unfold validate_numerical_value.
  rewrite andb_true_iff, !Qle_bool_iff. tauto.
Qed.

(** ** Speed subscore *)

(** C9. With a positive timeout, [calculate_subscore_speed] returns
    [1 - min(response_time, timeout) / timeout]; the value is 0 as soon as
    the response time reaches the timeout, so a slow response is scored (at
    zero) and not dropped. *)
Theorem calculate_subscore_speed_formula (self : Validator) (hotkey : string)
    (response_time : Q) :
  0 < timeout self ->
  exists speed_score,
    calculate_subscore_speed self hotkey response_time = Ok speed_score /\
    speed_score == 1 - Qmin response_time (timeout self) / timeout self /\
    (timeout self <= response_time -> speed_score == 0).
Proof.
  intros Hpos. unfold calculate_subscore_speed.
  assert (Hnz : ~ timeout self == 0) by (intros E; rewrite E in Hpos; lra).
  destruct (Qeq_bool (timeout self) 0) eqn:Ez.
  { apply Qeq_bool_iff in Ez. contradiction. }
  destruct (Qlt_bool (timeout self) response_time) eqn:Hslow.
  - apply Qlt_bool_iff in Hslow. eexists; split; [reflexivity|]. split.
    + rewrite Q.min_r by lra. reflexivity.
    + intros _. field. exact Hnz.
  - apply Qlt_bool_false in Hslow. eexists; split; [reflexivity|]. split.
    + rewrite Q.min_l by exact Hslow. reflexivity.
    + intros Hge. assert (E : response_time == timeout self) by lra.
      rewrite E. field. exact Hnz.
Qed.

(** The example of the design document: a response after 15 with a timeout
    of 12 scores exactly 0. *)
Lemma calculate_subscore_speed_15_12 :
  0 < timeout idle_validator /\
  exists speed_score,
    calculate_subscore_speed idle_validator "miner" 15 = Ok speed_score /\
    speed_score == 0.
Proof.
  assert (Hpos : 0 < timeout idle_validator) by (simpl; lra).
  split; [exact Hpos|].
  destruct (calculate_subscore_speed_formula idle_validator "miner" 15 Hpos)
    as (v & Hv & _ & Hzero).
  exists v. split; [exact Hv|]. apply Hzero. simpl. lra.
Defined.

(** ** Penalties *)

Lemma penalty_multipliers_bounds (similarity base duplicate : Q) :
  let '(distance_multiplier, speed_multiplier) :=
    penalty_multipliers similarity base duplicate in
  0 <= distance_multiplier <= 1 /\ 0 <= speed_multiplier <= 1.
Proof.
  unfold penalty_multipliers. split.
  - destruct (Qge_bool base 20) eqn:Hcap; [lra|].
    apply Qge_bool_false in Hcap.
    destruct (Qlt_bool 0 base) eqn:Hpos; [|lra].
    apply Qlt_bool_iff in Hpos.
    set (m := 1 - base / 2 / 10).
    assert (E : m == 1 - base * (1 # 20)) by (unfold m; field).
    rewrite E. lra.
  - set (s := 0 + similarity + duplicate).
    destruct (Qge_bool s 20) eqn:Hcap; [lra|].
    apply Qge_bool_false in Hcap.
    destruct (Qlt_bool 0 s) eqn:Hpos; [|lra].
    apply Qlt_bool_iff in Hpos.
    set (m := 1 - s / 2 / 10).
    assert (E : m == 1 - s * (1 # 20)) by (unfold m; field).
    rewrite E. lra.
Qed.

(** C6. A hotkey without an entry in [miner_responses] (the mapping may
    also be unset or empty) gets the penalties (5, 5, 5) whatever the
    response is, and [get_response_penalties] turns them into the
    multipliers 0.75 for the distance and 0.5 for the speed. *)
Theorem apply_penalty_unseen_hotkey
    (similarity_check_penalty : nat -> list Response -> Q)
    (base_check_penalty : nat -> list Response -> Response -> string -> Q)
    (duplicate_check_penalty : nat -> list Response -> Response -> Q)
    (self : Validator) (response : Response) (hotkey prompt : string) :
  (forall responses : gmap string (list Response),
     miner_responses self = Some responses -> responses !! hotkey = None) ->
  apply_penalty similarity_check_penalty base_check_penalty duplicate_check_penalty
    self response hotkey prompt = Ok (5, 5, 5) /\
  exists distance_multiplier speed_multiplier,
    get_response_penalties similarity_check_penalty base_check_penalty
      duplicate_check_penalty self response hotkey prompt
      = Ok (distance_multiplier, speed_multiplier) /\
    distance_multiplier == 0.75 /\ speed_multiplier == 0.5.
Proof.
  intros Hunseen.
  assert (Hpen : apply_penalty similarity_check_penalty base_check_penalty
            duplicate_check_penalty self response hotkey prompt = Ok (5, 5, 5)).
  { unfold apply_penalty. destruct (miner_responses self) as [responses|]; [|done].
    destruct (decide (responses = ∅)); [done|].
    by rewrite (Hunseen responses eq_refl). }
  split; [exact Hpen|].
  unfold get_response_penalties. rewrite Hpen. simpl.
  eexists _, _. split; [reflexivity|]. split; reflexivity.
Qed.

(** A validator that has heard of ["seen"] only: ["new"] gets the fixed
    penalties, whatever the three checks would say. *)
Lemma apply_penalty_unseen_hotkey_example :
  let self := with_miner_responses idle_validator
                (Some {[ "seen" := [example_response] ]}) in
  (forall responses : gmap string (list Response),
     miner_responses self = Some responses -> responses !! "new" = None) /\
  apply_penalty (fun _ _ => 20) (fun _ _ _ _ => 20) (fun _ _ _ => 20)
    self example_response "new" "prompt" = Ok (5, 5, 5) /\
  exists distance_multiplier speed_multiplier,
    get_response_penalties (fun _ _ => 20) (fun _ _ _ _ => 20) (fun _ _ _ => 20)
      self example_response "new" "prompt"
      = Ok (distance_multiplier, speed_multiplier) /\
    distance_multiplier == 0.75 /\ speed_multiplier == 0.5.
Proof.
  intros self.
  assert (H : forall responses : gmap string (list Response),
     miner_responses self = Some responses -> responses !! "new" = None).
  { intros responses [= <-]. by vm_compute. }
  split; [exact H|].
  exact (apply_penalty_unseen_hotkey (fun _ _ => 20) (fun _ _ _ _ => 20)
           (fun _ _ _ => 20) self example_response "new" "prompt" H).
Defined.

(** ** Total score *)

Lemma score_weights_distance : score_weights !! "distance" = Some 0.85.
Proof. by vm_compute. Qed.

Lemma score_weights_speed : score_weights !! "speed" = Some 0.15.
Proof. by vm_compute. Qed.

Lemma weighted_sum_bounds (d s dm sm : Q) :
  0 <= d <= 1 -> 0 <= s <= 1 -> 0 <= dm <= 1 -> 0 <= sm <= 1 ->
  0 <= 0.85 * d * dm /\ 0.85 * d * dm <= 0.85 /\
  0 <= 0.15 * s * sm /\ 0.15 * s * sm <= 0.15.
Proof.
  intros Hd Hs Hdm Hsm.
  assert (Hd' : 0 <= d * dm <= 1) by nra.
  assert (Hs' : 0 <= s * sm <= 1) by nra.
  assert (E1 : 0.85 * d * dm == 0.85 * (d * dm)) by ring.
  assert (E2 : 0.15 * s * sm == 0.15 * (s * sm)) by ring.
  rewrite E1, E2. lra.
Qed.

Lemma calculate_penalized_scores_weights (d s dm sm : Q) :
  calculate_penalized_scores score_weights d s dm sm
  = Ok (0.85 * d * dm + 0.15 * s * sm, 0.85 * d * dm, 0.15 * s * sm).
Proof.
  unfold calculate_penalized_scores.
  by rewrite score_weights_distance, score_weights_speed.
Qed.

Lemma get_response_penalties_bounds
    (similarity_check_penalty : nat -> list Response -> Q)
    (base_check_penalty : nat -> list Response -> Response -> string -> Q)
    (duplicate_check_penalty : nat -> list Response -> Response -> Q)
    (self : Validator) (response : Response) (hotkey prompt : string)
    (distance_multiplier speed_multiplier : Q) :
  get_response_penalties similarity_check_penalty base_check_penalty
    duplicate_check_penalty self response hotkey prompt
  = Ok (distance_multiplier, speed_multiplier) ->
  0 <= distance_multiplier <= 1 /\ 0 <= speed_multiplier <= 1.
Proof.
  unfold get_response_penalties.
  destruct (apply_penalty _ _ _ _ _ _ _) as [[[similarity base] duplicate]|];
    simpl; [|done].
  pose proof (penalty_multipliers_bounds similarity base duplicate) as Hm.
  destruct (penalty_multipliers similarity base duplicate) as [dm sm].
  by intros [= <- <-].
Qed.

(** [calculate_score] by cases: the zero result for a subscore out of
    range, whatever [get_response_penalties] raises, and else the result
    built from the weighted sum, which the second range check lets through. *)
Lemma calculate_score_cases
    (similarity_check_penalty : nat -> list Response -> Q)
    (base_check_penalty : nat -> list Response -> Response -> string -> Q)
    (duplicate_check_penalty : nat -> list Response -> Response -> Q)
    (subscore_distance : Response -> Q -> option Q)
    (subscore_speed : Q -> Q -> option Q)
    (self : Validator) (response : Response) (target : Q) (prompt : string)
    (response_time : Q) (hotkey : string) :
  let d := default 0 (subscore_distance response target) in
  let s := default 0 (subscore_speed (timeout self) response_time) in
  calculate_score similarity_check_penalty base_check_penalty
    duplicate_check_penalty subscore_distance subscore_speed
    self response target prompt response_time hotkey
  = if negb (validate_numerical_value d 0 1) || negb (validate_numerical_value s 0 1)
    then Ok get_engine_response_object_default
    else
      match get_response_penalties similarity_check_penalty base_check_penalty
              duplicate_check_penalty self response hotkey prompt with
      | Raise e => Raise e
      | Ok (dm, sm) =>
          Ok (get_engine_response_object (0.85 * d * dm + 0.15 * s * sm)
                (0.85 * d * dm) (0.15 * s * sm) dm sm d s)
      end.
Proof.
  intros d s. unfold calculate_score. fold d s.
  destruct (validate_numerical_value d 0 1) eqn:Hd; [|done].
  destruct (validate_numerical_value s 0 1) eqn:Hs; [|done].
  apply validate_numerical_value_iff in Hd, Hs. simpl.
  destruct (get_response_penalties _ _ _ _ _ _ _) as [[dm sm]|e] eqn:Hpen;
    [|done].
  simpl. rewrite calculate_penalized_scores_weights. simpl.
  destruct (get_response_penalties_bounds _ _ _ _ _ _ _ _ _ Hpen) as [Hdm Hsm].
  pose proof (weighted_sum_bounds _ _ _ _ Hd Hs Hdm Hsm) as (H1 & H2 & H3 & H4).
  rewrite (proj2 (validate_numerical_value_iff (0.85 * d * dm + 0.15 * s * sm) 0 1))
    by lra.
  rewrite (proj2 (validate_numerical_value_iff (0.85 * d * dm) 0 1)) by lra.
  rewrite (proj2 (validate_numerical_value_iff (0.15 * s * sm) 0 1)) by lra.
  reflexivity.
Qed.

Lemma validate_numerical_value_false v lo hi :
  validate_numerical_value v lo hi = false <-> ~ lo <= v <= hi.
Proof.
  rewrite <- validate_numerical_value_iff. symmetry. apply not_true_iff_false.
Qed.

(** C2. With both subscores in [0,1] and the two multipliers that
    [get_response_penalties] returns, the total of
    [calculate_penalized_scores] under the weights 0.85 and 0.15 is in
    [0,1].  Consequently every result of [calculate_score] carries a total in
    [0,1], whatever the inputs: a subscore out of [0,1] is not clamped, the
    call returns the zero result (every field 0) in its place; and any other
    result is the one built from the weighted sum itself, its subscores being
    in [0,1]. *)
Theorem total_score_in_unit_interval
    (similarity_check_penalty : nat -> list Response -> Q)
    (base_check_penalty : nat -> list Response -> Response -> string -> Q)
    (duplicate_check_penalty : nat -> list Response -> Response -> Q)
    (subscore_distance : Response -> Q -> option Q)
    (subscore_speed : Q -> Q -> option Q)
    (self : Validator) (response : Response) (target : Q) (prompt : string)
    (response_time : Q) (hotkey : string) :
  let d := default 0 (subscore_distance response target) in
  let s := default 0 (subscore_speed (timeout self) response_time) in
  let run :=
    calculate_score similarity_check_penalty base_check_penalty
      duplicate_check_penalty subscore_distance subscore_speed
      self response target prompt response_time hotkey in
  (forall distance_score speed_score distance_multiplier speed_multiplier,
     0 <= distance_score <= 1 ->
     0 <= speed_score <= 1 ->
     get_response_penalties similarity_check_penalty base_check_penalty
       duplicate_check_penalty self response hotkey prompt
     = Ok (distance_multiplier, speed_multiplier) ->
     exists total final_distance final_speed,
       calculate_penalized_scores score_weights distance_score speed_score
         distance_multiplier speed_multiplier
       = Ok (total, final_distance, final_speed) /\
       total == 0.85 * distance_score * distance_multiplier
                + 0.15 * speed_score * speed_multiplier /\
       0 <= total <= 1) /\
  (forall score, run = Ok score -> 0 <= total_score score <= 1) /\
  (~ 0 <= d <= 1 \/ ~ 0 <= s <= 1 -> run = Ok get_engine_response_object_default) /\
  (forall score,
     run = Ok score ->
     score = get_engine_response_object_default \/
     (0 <= d <= 1 /\ 0 <= s <= 1 /\
      exists distance_multiplier speed_multiplier,
        get_response_penalties similarity_check_penalty base_check_penalty
          duplicate_check_penalty self response hotkey prompt
        = Ok (distance_multiplier, speed_multiplier) /\
        score = get_engine_response_object
                  (0.85 * d * distance_multiplier + 0.15 * s * speed_multiplier)
                  (0.85 * d * distance_multiplier) (0.15 * s * speed_multiplier)
                  distance_multiplier speed_multiplier d s)) /\
  get_engine_response_object_default
  = {| total_score := 0; final_distance_score := 0; final_speed_score := 0;
       distance_penalty := 0; speed_penalty := 0;
       raw_distance_score := 0; raw_speed_score := 0 |}.
Proof.
  intros d s run.
  assert (Hcases : forall score, run = Ok score ->
            score = get_engine_response_object_default \/
            (0 <= d <= 1 /\ 0 <= s <= 1 /\
             exists dm sm,
               get_response_penalties similarity_check_penalty base_check_penalty
                 duplicate_check_penalty self response hotkey prompt
               = Ok (dm, sm) /\
               score = get_engine_response_object
                         (0.85 * d * dm + 0.15 * s * sm)
                         (0.85 * d * dm) (0.15 * s * sm) dm sm d s)).
  { intros score. unfold run. rewrite calculate_score_cases. fold d s.
    destruct (validate_numerical_value d 0 1) eqn:Hd;
      [|intros [= <-]; by left].
    destruct (validate_numerical_value s 0 1) eqn:Hs;
      [|intros [= <-]; by left].
    apply validate_numerical_value_iff in Hd, Hs. simpl.
    destruct (get_response_penalties _ _ _ _ _ _ _) as [[dm sm]|e]; [|done].
    intros [= <-]. right. split; [done|]. split; [done|]. by exists dm, sm. }
  split; [|split; [|split; [|split]]].
  - intros distance_score speed_score dm sm Hd Hs Hpen.
    destruct (get_response_penalties_bounds _ _ _ _ _ _ _ _ _ Hpen) as [Hdm Hsm].
    rewrite calculate_penalized_scores_weights.
    eexists _, _, _. split; [reflexivity|]. split; [reflexivity|].
    pose proof (weighted_sum_bounds _ _ _ _ Hd Hs Hdm Hsm). lra.
  - intros score Hrun.
    destruct (Hcases score Hrun) as [->|(Hd & Hs & dm & sm & Hpen & ->)].
    + simpl. lra.
    + destruct (get_response_penalties_bounds _ _ _ _ _ _ _ _ _ Hpen)
        as [Hdm Hsm].
      pose proof (weighted_sum_bounds _ _ _ _ Hd Hs Hdm Hsm). simpl. lra.
  - intros Hout. unfold run. rewrite calculate_score_cases. fold d s.
    destruct Hout as [Hout|Hout];
      apply validate_numerical_value_false in Hout; rewrite Hout; simpl;
      [done|by rewrite orb_true_r].
  - exact Hcases.
  - reflexivity.
Qed.

(** The first example of the design document: subscores 0.8 and 0.9 and a
    history that draws no penalty total 0.815.  A distance subscore of 1.2
    is not cut down to 1: the result is the zero result. *)
Lemma total_score_example :
  let self := with_miner_responses example_validator
                (Some {[ "alice" := [example_response] ]}) in
  0 <= 0.8 <= 1 /\ 0 <= 0.9 <= 1 /\
  get_response_penalties (fun _ _ => 0) (fun _ _ _ _ => 0) (fun _ _ _ => 0)
    self example_response "alice" "prompt" = Ok (1, 1) /\
  (exists total final_distance final_speed,
     calculate_penalized_scores score_weights 0.8 0.9 1 1
     = Ok (total, final_distance, final_speed) /\
     total == 0.815 /\ 0 <= total <= 1) /\
  (exists score,
     calculate_score (fun _ _ => 0) (fun _ _ _ _ => 0) (fun _ _ _ => 0)
       (fun _ _ => Some 0.8) (fun _ _ => Some 0.9)
       self example_response 1 "prompt" 1.2 "alice" = Ok score /\
     total_score score == 0.815 /\ 0 <= total_score score <= 1) /\
  calculate_score (fun _ _ => 0) (fun _ _ _ _ => 0) (fun _ _ _ => 0)
    (fun _ _ => Some 1.2) (fun _ _ => Some 0.9)
    self example_response 1 "prompt" 1.2 "alice"
  = Ok get_engine_response_object_default.
Proof.
  intros self.
  assert (Hd : 0 <= 0.8 <= 1) by lra.
  assert (Hs : 0 <= 0.9 <= 1) by lra.
  assert (Hpen : get_response_penalties (fun _ _ => 0) (fun _ _ _ _ => 0)
                   (fun _ _ _ => 0) self example_response "alice" "prompt"
                 = Ok (1, 1)) by (by vm_compute).
  split; [exact Hd|]. split; [exact Hs|]. split; [exact Hpen|].
  destruct (total_score_in_unit_interval (fun _ _ => 0) (fun _ _ _ _ => 0)
              (fun _ _ _ => 0) (fun _ _ => Some 0.8) (fun _ _ => Some 0.9)
              self example_response 1 "prompt" 1.2 "alice")
    as (Hsum & Hscore & _).
  destruct (total_score_in_unit_interval (fun _ _ => 0) (fun _ _ _ _ => 0)
              (fun _ _ _ => 0) (fun _ _ => Some 1.2) (fun _ _ => Some 0.9)
              self example_response 1 "prompt" 1.2 "alice")
    as (_ & _ & Hzero & _).
  split; [|split].
  - destruct (Hsum 0.8 0.9 1 1 Hd Hs Hpen)
      as (total & fd & fs & Hcall & Htotal & Hbounds).
    exists total, fd, fs. split; [exact Hcall|]. split; [|exact Hbounds].
    rewrite Htotal. reflexivity.
  - eexists. split; [by vm_compute|]. split; [reflexivity|].
    apply Hscore. by vm_compute.
  - apply Hzero. left. simpl. lra.
Defined.

(** ** The blacklist *)

Lemma elem_of_hotkeys_of (items : list (gmap string string)) (h : string) :
  h ∈ omap (fun item : gmap string string => item !! "hotkey") items <->
  exists item, item ∈ items /\ item !! "hotkey" = Some h.
Proof. apply list_elem_of_omap. Qed.

(** C5, as the code has it.  [check_blacklisted_miner_hotkeys] stores the
    hotkeys of the local entries followed by those of the remote entries,
    one per entry with a ["hotkey"] field and in the order of the entries; a
    hotkey is stored if and only if an entry of either source carries it.
    Nothing removes a hotkey that occurs more than once. *)
Theorem check_blacklisted_miner_hotkeys_concat (self : Validator)
    (local_miner_blacklist remote_miner_blacklist : list (gmap string string)) :
  exists stored,
    blacklisted_miner_hotkeys
      (check_blacklisted_miner_hotkeys self local_miner_blacklist
         remote_miner_blacklist) = Some stored /\
    stored = omap (fun item : gmap string string => item !! "hotkey")
               local_miner_blacklist
             ++ omap (fun item : gmap string string => item !! "hotkey")
                  remote_miner_blacklist /\
    forall h : string,
      h ∈ stored <->
      exists item, (item ∈ local_miner_blacklist \/ item ∈ remote_miner_blacklist)
                   /\ item !! "hotkey" = Some h.
Proof.
  eexists. split; [reflexivity|]. split; [apply omap_app|].
  intros h. rewrite elem_of_hotkeys_of.
  setoid_rewrite elem_of_app. reflexivity.
Qed.

(** A hotkey listed both locally and remotely is stored twice. *)
Lemma check_blacklisted_miner_hotkeys_duplicate :
  let entry : gmap string string :=
    {[ "hotkey" := "5Fminer"; "reason" := "spam" ]} in
  blacklisted_miner_hotkeys
    (check_blacklisted_miner_hotkeys idle_validator [entry] [entry])
  = Some ["5Fminer"; "5Fminer"] /\
  ~ NoDup ["5Fminer"; "5Fminer"].
Proof.
  split; [by vm_compute|].
  intros Hnd. apply NoDup_cons in Hnd as [Hnotin _]. apply Hnotin. left.
Qed.

(** ** Membership changes of the registry *)

Lemma elem_of_enumerate {A} (l : list A) (i : nat) (x : A) :
  (i, x) ∈ enumerate l <-> l !! i = Some x.
Proof.
  unfold enumerate. rewrite elem_of_lookup_imap. split.
  - intros (j & y & [= -> ->] & Hy). exact Hy.
  - intros Hx. by exists i, x.
Qed.

Lemma length_metagraph_S (m : Metagraph.t) :
  length (Metagraph.S m) = length (Metagraph.hotkeys m).
Proof.
  unfold Metagraph.S, Metagraph.total_stake, Metagraph.hotkeys, Metagraph.axons.
  by rewrite !length_fmap.
Qed.

(** The loop resets exactly the positions it meets with a different stored
    hotkey, as long as every position it meets is one of the scores. *)
Lemma reset_replaced_spec (old_hotkeys : list string)
    (entries : list (nat * string)) (scores : list Q) :
  (forall i h, (i, h) ∈ entries ->
     (i < length scores)%nat /\ is_Some (old_hotkeys !! i)) ->
  exists scores',
    reset_replaced old_hotkeys entries scores = (Ok (), scores') /\
    length scores' = length scores /\
    (forall j, scores' !! j = scores !! j \/ scores' !! j = Some 0) /\
    (forall j, (forall h, (j, h) ∈ entries -> old_hotkeys !! j = Some h) ->
       scores' !! j = scores !! j) /\
    (forall j h, (j, h) ∈ entries -> old_hotkeys !! j <> Some h ->
       scores' !! j = Some 0).
Proof.
  revert scores.
  induction entries as [|[i h] rest IH]; intros scores Hin; simpl.
  { exists scores. repeat split; auto.
    intros j h Hj. by apply elem_of_nil in Hj. }
  destruct (Hin i h) as [Hlt [old Hold]]; [left|].
  rewrite Hold.
  destruct (decide (old ≠ h)) as [Hne|Heq].
  - destruct (decide (i < length scores)%nat); [|lia].
    destruct (IH (<[i:=0]> scores)) as (scores' & Hrun & Hlen & Hcase & Hframe & Hreset).
    { intros j h' Hj. rewrite length_insert. apply (Hin j h'). by right. }
    exists scores'. split; [exact Hrun|].
    split; [by rewrite Hlen, length_insert|].
    assert (Hat : scores' !! i = Some 0).
    { destruct (Hcase i) as [E|E]; [|exact E].
      rewrite E. by apply list_lookup_insert_eq. }
    split; [|split].
    + intros j. destruct (decide (j = i)) as [->|Hji]; [by right|].
      destruct (Hcase j) as [E|E]; [left|by right].
      rewrite E. by apply list_lookup_insert_ne.
    + intros j Hsame.
      assert (Hji : i <> j).
      { intros ->. specialize (Hsame h (list_elem_of_here _ _)). congruence. }
      rewrite Hframe.
      * by apply list_lookup_insert_ne.
      * intros h' Hj. apply Hsame. by right.
    + intros j h' Hj Hdiff. apply elem_of_cons in Hj as [[= -> ->]|Hj].
      * exact Hat.
      * by apply (Hreset j h').
  - apply dec_stable in Heq. subst old.
    destruct (IH scores) as (scores' & Hrun & Hlen & Hcase & Hframe & Hreset).
    { intros j h' Hj. apply (Hin j h'). by right. }
    exists scores'. split; [exact Hrun|]. split; [exact Hlen|].
    split; [exact Hcase|]. split.
    + intros j Hsame. apply Hframe. intros h' Hj. apply Hsame. by right.
    + intros j h' Hj Hdiff. apply elem_of_cons in Hj as [[= -> ->]|Hj].
      * congruence.
      * by apply (Hreset j h').
Qed.

(** C7, as the code has it.  With a non-empty stored snapshot: if its length
    differs from that of the current hotkeys, every score becomes 0 and the
    vector takes the size of the registry; if the lengths agree (and there is
    a score per stored hotkey), the score of each position whose hotkey
    changed becomes 0 and every other position keeps its score.  In both
    cases the snapshot becomes the current hotkeys.  With an empty or unset
    snapshot only the snapshot is replaced; no score is touched. *)
Theorem check_hotkeys_membership_change (self : Validator) :
  let current_hotkeys := Metagraph.hotkeys (metagraph self) in
  (forall old_hotkeys,
     hotkeys self = Some old_hotkeys -> old_hotkeys <> [] ->
     length old_hotkeys <> length current_hotkeys ->
     exists self',
       check_hotkeys self = (Ok (), self') /\
       scores self' = replicate (length current_hotkeys) 0 /\
       hotkeys self' = Some current_hotkeys) /\
  (forall old_hotkeys,
     hotkeys self = Some old_hotkeys -> old_hotkeys <> [] ->
     length old_hotkeys = length current_hotkeys ->
     length (scores self) = length old_hotkeys ->
     exists self',
       check_hotkeys self = (Ok (), self') /\
       hotkeys self' = Some current_hotkeys /\
       length (scores self') = length (scores self) /\
       forall i : nat, (i < length current_hotkeys)%nat ->
         (old_hotkeys !! i <> current_hotkeys !! i -> scores self' !! i = Some 0) /\
         (old_hotkeys !! i = current_hotkeys !! i ->
          scores self' !! i = scores self !! i)) /\
  (hotkeys self = None \/ hotkeys self = Some [] ->
   check_hotkeys self = (Ok (), set_hotkeys self (Some current_hotkeys))).
Proof.
  intros current_hotkeys. split; [|split].
  - intros old Hold Hne Hlen. unfold check_hotkeys. rewrite Hold.
    destruct old as [|h old]; [done|].
    fold current_hotkeys.
    destruct (decide (length (h :: old) = length current_hotkeys)); [done|].
    eexists. split; [reflexivity|]. simpl.
    by rewrite length_metagraph_S.
  - intros old Hold Hne Hlen Hscores. unfold check_hotkeys. rewrite Hold.
    destruct old as [|h old]; [done|].
    fold current_hotkeys.
    destruct (decide (length (h :: old) = length current_hotkeys)); [|done].
    destruct (reset_replaced_spec (h :: old) (enumerate current_hotkeys) (scores self))
      as (scores' & Hrun & Hlen' & _ & Hframe & Hreset).
    { intros i k Hik. apply elem_of_enumerate in Hik.
      apply lookup_lt_Some in Hik. split; [lia|].
      apply lookup_lt_is_Some. lia. }
    rewrite Hrun. eexists. split; [reflexivity|]. simpl.
    split; [done|]. split; [exact Hlen'|].
    intros i Hi.
    destruct (lookup_lt_is_Some_2 current_hotkeys i Hi) as [k Hk].
    split.
    + intros Hdiff. apply (Hreset i k).
      * by apply elem_of_enumerate.
      * by rewrite <- Hk.
    + intros Hsame. apply Hframe. intros k' Hk'.
      apply elem_of_enumerate in Hk'. by rewrite Hsame.
  - unfold check_hotkeys. fold current_hotkeys. by intros [-> | ->].
Qed.

(** A registry of three where the second slot changed hands. *)
Lemma check_hotkeys_slot_reuse_example :
  let self :=
    set_scores
      (set_hotkeys
         (with_registry idle_validator
            [neuron 0 1 "10.0.0.1" "alice"; neuron 1 1 "10.0.0.2" "dave";
             neuron 2 1 "10.0.0.3" "carol"])
         (Some ["alice"; "bob"; "carol"]))
      [0.3; 0.6; 0.9] in
  exists self',
    check_hotkeys self = (Ok (), self') /\
    hotkeys self' = Some ["alice"; "dave"; "carol"] /\
    scores self' !! 0%nat = Some 0.3 /\
    scores self' !! 1%nat = Some 0 /\
    scores self' !! 2%nat = Some 0.9.
Proof.
  intros self.
  destruct (proj1 (proj2 (check_hotkeys_membership_change self))
              ["alice"; "bob"; "carol"] eq_refl ltac:(done) eq_refl eq_refl)
    as (self' & Hrun & Hsnap & _ & Hpos).
  exists self'. split; [exact Hrun|]. split; [exact Hsnap|].
  split; [|split].
  - rewrite (proj2 (Hpos 0%nat ltac:(simpl; lia)) eq_refl). reflexivity.
  - apply (proj1 (Hpos 1%nat ltac:(simpl; lia))). discriminate.
  - rewrite (proj2 (Hpos 2%nat ltac:(simpl; lia)) eq_refl). reflexivity.
Defined.

(** An empty stored snapshot against a registry of one: the lengths differ,
    yet the score is kept. *)
Lemma check_hotkeys_empty_snapshot_keeps_scores :
  let self :=
    set_scores
      (set_hotkeys (with_registry idle_validator [neuron 0 1 "10.0.0.1" "alice"])
         (Some []))
      [0.5] in
  hotkeys self = Some [] /\
  length ([] : list string) <> length (Metagraph.hotkeys (metagraph self)) /\
  fst (check_hotkeys self) = Ok () /\
  scores (snd (check_hotkeys self)) = [0.5] /\
  scores (snd (check_hotkeys self))
    <> replicate (length (Metagraph.hotkeys (metagraph self))) 0.
Proof.
  repeat split; try reflexivity; simpl; discriminate.
Qed.

(** ** Loading the saved state *)

Lemma append_ne_self (s t : string) : t <> "" -> s +:+ t <> s.
Proof.
  intros Ht. induction s as [|c s IH]; simpl.
  - exact Ht.
  - intros [= E]. by apply IH.
Qed.

Lemma autorecovery_path_fresh (path : string) (now : Z) :
  autorecovery_path path now <> path.
Proof. unfold autorecovery_path. by apply append_ne_self. Qed.

Lemma load_state_try_corrupted (self : Validator) (file : File) :
  corrupted file -> exists e self', load_state_try self file = (Raise e, self').
Proof.
  unfold load_state_try. destruct file as [raw|raw|d]; simpl.
  - intros _. by eexists _, _.
  - intros _. by eexists _, _.
  - intros Hmissing.
    destruct (sd_step d); [|by eexists _, _].
    destruct (sd_scores d); [|by eexists _, _].
    destruct (sd_hotkeys d); [|by eexists _, _].
    destruct (sd_last_updated_block d); [|by eexists _, _].
    by destruct Hmissing as [|[|[|]]].
Qed.

Lemma reset_validator_state_spec (self : Validator) (fs : gmap string File)
    (path : string) (now : Z) (file : File) :
  fs !! path = Some file ->
  exists self',
    reset_validator_state self fs path now
    = (Ok (), self', <[autorecovery_path path now := file]> (delete path fs)) /\
    scores self' = replicate (length (Metagraph.hotkeys (metagraph self))) 0 /\
    step self' = 0%Z /\ last_updated_block self' = 0%Z /\
    hotkeys self' = None /\ blacklisted_miner_hotkeys self' = None /\
    metagraph self' = metagraph self.
Proof.
  intros Hfile. unfold reset_validator_state, rename. rewrite Hfile.
  eexists. split; [reflexivity|]. simpl.
  by rewrite length_metagraph_S.
Qed.

Lemma load_state_try_metagraph (self : Validator) (file : File) :
  metagraph (snd (load_state_try self file)) = metagraph self.
Proof.
  unfold load_state_try.
  destruct (torch_load file) as [state|]; [|done].
  repeat (match goal with
          | |- context [state_getitem ?s ?k] => destruct (state_getitem s k)
          end; simpl; try done).
Qed.

(** C8. [load_state] never raises.  On a state file that fails to load (not
    a pickle, not a dict, or a dict without one of the keys read), the file is
    moved to [<path>-<timestamp>.autorecovery] with its contents, the scores
    become zeros sized to the registry, and step, last updated block, hotkey
    snapshot and blacklist go back to 0, 0, unset and unset.  Without a state
    file the scores become zeros and nothing else happens. *)
Theorem load_state_recovers (self : Validator) (fs : gmap string File) (now : Z) :
  (forall e, fst (fst (load_state self fs now)) <> Raise e) /\
  (forall file,
     fs !! state_path self = Some file -> corrupted file ->
     exists self',
       load_state self fs now
       = (Ok (), self',
          <[autorecovery_path (state_path self) now := file]>
            (delete (state_path self) fs)) /\
       (<[autorecovery_path (state_path self) now := file]>
          (delete (state_path self) fs)) !! state_path self = None /\
       (<[autorecovery_path (state_path self) now := file]>
          (delete (state_path self) fs))
         !! autorecovery_path (state_path self) now = Some file /\
       scores self' = replicate (length (Metagraph.hotkeys (metagraph self))) 0 /\
       step self' = 0%Z /\ last_updated_block self' = 0%Z /\
       hotkeys self' = None /\ blacklisted_miner_hotkeys self' = None) /\
  (fs !! state_path self = None ->
   load_state self fs now = (Ok (), init_default_scores self, fs) /\
   scores (init_default_scores self)
   = replicate (length (Metagraph.hotkeys (metagraph self))) 0).
Proof.
  split; [|split].
  - intros e. unfold load_state.
    destruct (fs !! state_path self) as [file|] eqn:Hfile; [|done].
    destruct (load_state_try self file) as [[[]|e'] self1]; [done|].
    destruct (reset_validator_state_spec self1 fs (state_path self) now file Hfile)
      as (self' & -> & _). done.
  - intros file Hfile Hbad. unfold load_state. rewrite Hfile.
    pose proof (load_state_try_metagraph self file) as Hm.
    destruct (load_state_try_corrupted self file Hbad) as (e & self1 & Htry).
    rewrite Htry in Hm |- *. simpl in Hm.
    destruct (reset_validator_state_spec self1 fs (state_path self) now file Hfile)
      as (self' & -> & Hscores & Hstep & Hblock & Hsnap & Hblack & _).
    exists self'. split; [reflexivity|].
    split.
    { rewrite lookup_insert_ne by apply autorecovery_path_fresh.
      apply lookup_delete_eq. }
    split; [apply lookup_insert_eq|].
    by rewrite <- Hm.
  - intros Hnone. unfold load_state. rewrite Hnone. split; [reflexivity|].
    simpl. by rewrite length_metagraph_S.
Qed.

(** A state file cut short, in a registry of two. *)
Lemma load_state_recovers_example :
  let self :=
    set_scores
      (with_registry idle_validator
         [neuron 0 1 "10.0.0.1" "alice"; neuron 1 1 "10.0.0.2" "bob"])
      [0.4; 0.7] in
  let fs : gmap string File := {[ "/validator/state.pt" := Garbage "truncated" ]} in
  fs !! state_path self = Some (Garbage "truncated") /\
  corrupted (Garbage "truncated") /\
  exists self' fs',
    load_state self fs 1700000000 = (Ok (), self', fs') /\
    fs' !! "/validator/state.pt" = None /\
    fs' !! "/validator/state.pt-1700000000.autorecovery"
      = Some (Garbage "truncated") /\
    scores self' = [0; 0] /\ step self' = 0%Z /\ hotkeys self' = None.
Proof.
  intros self fs.
  assert (Hfile : fs !! state_path self = Some (Garbage "truncated"))
    by (by vm_compute).
  split; [exact Hfile|]. split; [exact I|].
  destruct (proj1 (proj2 (load_state_recovers self fs 1700000000))
              (Garbage "truncated") Hfile I)
    as (self' & Hrun & Hgone & Hkept & Hscores & Hstep & _ & Hsnap & _).
  eexists self', _. split; [exact Hrun|].
  split; [exact Hgone|]. split; [exact Hkept|].
  split; [exact Hscores|]. split; [exact Hstep|exact Hsnap].
Defined.

(** ** Lists as Python has them *)

Lemma index_Ok_lookup {A} `{EqDecision A} (x : A) (l : list A) (i : nat) :
  index x l = Ok i -> l !! i = Some x.
Proof.
  revert i. induction l as [|y l IH]; intros i; simpl; [done|].
  destruct (decide (y = x)) as [->|Hne].
  - by intros [= <-].
  - destruct (index x l) as [j|]; simpl; [|done].
    intros [= <-]. by apply IH.
Qed.

Lemma index_elem_of {A} `{EqDecision A} (x : A) (l : list A) :
  x ∈ l -> exists i, index x l = Ok i.
Proof.
  induction l as [|y l IH]; simpl.
  - intros Hx. by apply elem_of_nil in Hx.
  - intros Hx. destruct (decide (y = x)) as [->|Hne]; [by eexists|].
    apply elem_of_cons in Hx as [->|Hx]; [done|].
    destruct (IH Hx) as [i ->]. by eexists.
Qed.

Lemma index_NoDup {A} `{EqDecision A} (x : A) (l : list A) (i : nat) :
  NoDup l -> l !! i = Some x -> index x l = Ok i.
Proof.
  intros Hnd Hi.
  destruct (index_elem_of x l) as [j Hj].
  { by eapply list_elem_of_lookup_2. }
  rewrite Hj. f_equal.
  eapply NoDup_lookup; eauto using index_Ok_lookup.
Qed.

Lemma comprehension_Ok {A B} (f : A -> result B) (g : A -> B) (l : list A) :
  (forall x, x ∈ l -> f x = Ok (g x)) -> comprehension f l = Ok (g <$> l).
Proof.
  induction l as [|x l IH]; intros Hf; simpl; [done|].
  rewrite (Hf x) by left. simpl.
  rewrite IH; [done|]. intros y Hy. apply Hf. by right.
Qed.

Lemma comprehension_total {A B} (f : A -> result B) (l : list A) :
  (forall x, x ∈ l -> exists y, f x = Ok y) -> exists ys, comprehension f l = Ok ys.
Proof.
  induction l as [|x l IH]; intros Hf; simpl; [by eexists|].
  destruct (Hf x) as [y ->]; [left|]. simpl.
  destruct IH as [ys ->]; [|by eexists].
  intros z Hz. apply Hf. by right.
Qed.

Lemma comprehension_getitem_seq {A B} (g : A -> B) (pre l : list A) :
  comprehension (fun i => n ← getitem (pre ++ l) i; Ok (g n))
    (seq (length pre) (length l)) = Ok (g <$> l).
Proof.
  revert pre. induction l as [|x l IH]; intros pre; simpl; [done|].
  assert (Hx : getitem (pre ++ x :: l) (length pre) = Ok x).
  { unfold getitem. by rewrite list_lookup_middle. }
  rewrite Hx. simpl.
  specialize (IH (pre ++ [x])).
  rewrite <- (assoc_L (++)) in IH. simpl in IH.
  rewrite length_app in IH. simpl in IH.
  replace (length pre + 1)%nat with (S (length pre)) in IH by lia.
  by rewrite IH.
Qed.

Lemma slice_subseteq {A} (l : list A) (start stop : Z) : slice l start stop ⊆ l.
Proof.
  unfold slice. etrans; [apply subseteq_take|apply subseteq_drop].
Qed.

Lemma slice_all {A} (l : list A) :
  slice l 0 (Z.of_nat (length l)) = l.
Proof.
  unfold slice, slice_bound. simpl.
  destruct (Z.ltb_spec (Z.of_nat (length l)) 0); [lia|].
  rewrite Z.min_id, Z.min_l by lia. simpl.
  rewrite Z.sub_0_r, Nat2Z.id. apply firstn_all.
Qed.

(** ** Target selection: the keep mask *)

(** The double negation of the source is the conjunction of the three keep
    flags, position by position. *)
Lemma uids_to_filter_conjunction (blacklisted_tensor invalid with_stake : list bool) :
  uids_to_filter blacklisted_tensor invalid with_stake
  = zip_with andb (zip_with andb blacklisted_tensor invalid) with_stake.
Proof.
  unfold uids_to_filter, logical_not, tensor_or, tensor_invert.
  revert invalid with_stake.
  induction blacklisted_tensor as [|b bs IH]; intros [|i il] [|s sl]; simpl; try done.
  rewrite IH. f_equal. by destruct b, i, s.
Qed.

Lemma collect_blacklisted_uids_spec (metagraph_hotkeys blacklist : list string) :
  exists uids,
    collect_blacklisted_uids metagraph_hotkeys blacklist = Ok uids /\
    forall i, i ∈ uids <->
      exists h, h ∈ blacklist /\ index h metagraph_hotkeys = Ok i.
Proof.
  induction blacklist as [|h rest (uids & Hrest & Hspec)]; simpl.
  { exists []. split; [done|]. intros i. split.
    - intros Hi. by apply elem_of_nil in Hi.
    - intros (h & Hh & _). by apply elem_of_nil in Hh. }
  destruct (decide (h ∈ metagraph_hotkeys)) as [Hin|Hout].
  - destruct (index_elem_of h metagraph_hotkeys Hin) as [i0 Hi0].
    rewrite Hi0, Hrest. simpl. exists (i0 :: uids). split; [done|].
    intros i. rewrite elem_of_cons, Hspec. split.
    + intros [->|(h' & Hh' & Hidx)].
      * exists h. split; [left|done].
      * exists h'. split; [by right|done].
    + intros (h' & Hh' & Hidx). apply elem_of_cons in Hh' as [->|Hh'].
      * left. congruence.
      * right. by exists h'.
  - exists uids. split; [done|]. intros i. rewrite Hspec. split.
    + intros (h' & Hh' & Hidx). exists h'. split; [by right|done].
    + intros (h' & Hh' & Hidx). apply elem_of_cons in Hh' as [->|Hh'].
      * exfalso. apply Hout. apply index_Ok_lookup in Hidx.
        by eapply list_elem_of_lookup_2.
      * by exists h'.
Qed.

Lemma blacklisted_uids_spec (self : Validator) :
  exists uids,
    blacklisted_uids self = Ok uids /\
    forall i, i ∈ uids <->
      exists blacklist h,
        blacklisted_miner_hotkeys self = Some blacklist /\ h ∈ blacklist /\
        index h (Metagraph.hotkeys (metagraph self)) = Ok i.
Proof.
  unfold blacklisted_uids.
  destruct (blacklisted_miner_hotkeys self) as [[|h0 blacklist]|].
  - exists []. split; [done|]. intros i. split.
    + intros Hi. by apply elem_of_nil in Hi.
    + intros (l & h & [= <-] & Hh & _). by apply elem_of_nil in Hh.
  - destruct (collect_blacklisted_uids_spec (Metagraph.hotkeys (metagraph self))
                (h0 :: blacklist)) as (uids & Hrun & Hspec).
    exists uids. split; [exact Hrun|]. intros i. rewrite Hspec. split.
    + intros (h & Hh & Hidx). by exists (h0 :: blacklist), h.
    + intros (l & h & [= <-] & Hh & Hidx). by exists h.
  - exists []. split; [done|]. intros i. split.
    + intros Hi. by apply elem_of_nil in Hi.
    + by intros (l & h & [=] & _).
Qed.

Lemma invalid_uids_ok (m : Metagraph.t) :
  Metagraph.uids m = seq 0 (length (Metagraph.neurons m)) ->
  invalid_uids m
  = Ok ((fun n => bool_decide (ip (axon_info n) ≠ "0.0.0.0")) <$> Metagraph.neurons m).
Proof.
  intros Huids. unfold invalid_uids. rewrite Huids.
  apply (comprehension_getitem_seq
           (fun n => bool_decide (ip (axon_info n) ≠ "0.0.0.0")) []).
Qed.

Lemma elem_of_axons_where (flag : bool) (all_axons : list AxonInfo)
    (mask : list bool) (a : AxonInfo) :
  a ∈ axons_where flag all_axons mask <->
  exists i, all_axons !! i = Some a /\ mask !! i = Some flag.
Proof.
  unfold axons_where. rewrite list_elem_of_fmap. split.
  - intros ([a' b] & -> & Hp). apply list_elem_of_filter in Hp as [Hflag Hp].
    simpl in Hflag. subst b.
    apply elem_of_lookup_zip_with in Hp as (i & x & y & [= <- <-] & Hx & Hy).
    by exists i.
  - intros (i & Ha & Hm). exists (a, flag). split; [done|].
    apply list_elem_of_filter. split; [done|].
    apply elem_of_lookup_zip_with. by exists i, a, flag.
Qed.

(** Over a well-formed registry, every axon the first half of
    [get_uids_to_query] keeps is the axon of a neuron that passes all three
    tests. *)
Lemma select_candidates_keep (self : Validator)
    (cands : list AxonInfo) (blacklisted not_queried : list nat) :
  registry_ok (metagraph self) ->
  select_candidates self (Metagraph.axons (metagraph self))
  = Ok (cands, blacklisted, not_queried) ->
  forall a, a ∈ cands ->
    exists n, n ∈ Metagraph.neurons (metagraph self) /\ axon_info n = a /\
      0 <= stake n /\ ip a <> "0.0.0.0" /\
      forall blacklist, blacklisted_miner_hotkeys self = Some blacklist ->
                        hotkey a ∉ blacklist.
Proof.
  intros [Huids Hnd] Hsel a Ha. unfold select_candidates in Hsel.
  rewrite (invalid_uids_ok _ Huids) in Hsel. simpl in Hsel.
  destruct (blacklisted_uids_spec self) as (bl & Hbl & Hblspec).
  rewrite Hbl in Hsel. simpl in Hsel.
  destruct (uids_of _ _) as [nq|]; simpl in Hsel; [|done].
  injection Hsel as <- <- <-.
  apply elem_of_axons_where in Ha as (i & Hai & Hmask).
  rewrite uids_to_filter_conjunction in Hmask.
  apply lookup_zip_with_Some in Hmask as (b12 & b3 & Hand & Hb12 & Hb3).
  apply lookup_zip_with_Some in Hb12 as (b1 & b2 & -> & Hb1 & Hb2).
  symmetry in Hand. apply andb_true_iff in Hand as [Hand ->].
  apply andb_true_iff in Hand as [-> ->].
  unfold Metagraph.axons in Hai. rewrite list_lookup_fmap in Hai.
  destruct (Metagraph.neurons (metagraph self) !! i) as [n|] eqn:Hn; [|done].
  injection Hai as <-.
  rewrite list_lookup_fmap, Hn in Hb2. injection Hb2 as Hb2.
  unfold uids_with_stake, Metagraph.total_stake in Hb3.
  rewrite !list_lookup_fmap, Hn in Hb3. injection Hb3 as Hb3.
  unfold blacklisted_uids_tensor in Hb1.
  rewrite Huids, list_lookup_fmap in Hb1.
  rewrite lookup_seq_lt in Hb1 by (by eapply lookup_lt_Some).
  injection Hb1 as Hb1.
  apply bool_decide_eq_true in Hb1, Hb2. apply Qge_bool_iff in Hb3.
  exists n. split; [by eapply list_elem_of_lookup_2|].
  split; [done|]. split; [exact Hb3|]. split; [exact Hb2|].
  intros blacklist Hblacklist Hin. apply Hb1. apply Hblspec.
  exists blacklist, (hotkey (axon_info n)). split; [done|]. split; [done|].
  apply index_NoDup; [done|].
  unfold Metagraph.hotkeys, Metagraph.axons.
  by rewrite !list_lookup_fmap, Hn.
Qed.

(** Over a well-formed registry the first half never raises. *)
Lemma select_candidates_total (self : Validator) :
  registry_ok (metagraph self) ->
  exists cands blacklisted not_queried,
    select_candidates self (Metagraph.axons (metagraph self))
    = Ok (cands, blacklisted, not_queried).
Proof.
  intros [Huids Hnd]. unfold select_candidates.
  rewrite (invalid_uids_ok _ Huids). simpl.
  destruct (blacklisted_uids_spec self) as (bl & -> & _). simpl.
  match goal with |- context [uids_of ?m ?l] =>
    destruct (comprehension_total
                (fun axon => index (hotkey axon) (Metagraph.hotkeys m)) l)
      as [nq Hnq] end.
  { intros a Ha. apply index_elem_of.
    apply elem_of_axons_where in Ha as (i & Hai & _).
    unfold Metagraph.hotkeys. apply list_elem_of_fmap. exists a.
    split; [done|]. by eapply list_elem_of_lookup_2. }
  unfold uids_of. rewrite Hnq. simpl. by eexists _, _, _.
Qed.

(** Whatever [get_uids_to_query] returns was kept by its first half. *)
Lemma get_uids_to_query_queried (self self' : Validator)
    (all_axons : list AxonInfo) (r : QueryTargets) :
  get_uids_to_query self all_axons = (Ok r, self') ->
  exists cands blacklisted not_queried,
    select_candidates self all_axons = Ok (cands, blacklisted, not_queried) /\
    queried r ⊆ cands.
Proof.
  unfold get_uids_to_query.
  destruct (select_candidates self all_axons) as [[[cands bl] nq]|]; [|done].
  intros Hrun. exists cands, bl, nq. split; [done|].
  unfold query_targets in Hrun.
  destruct (max_targets self <? 256)%Z.
  - destruct (start_idx self =? end_idx self cands)%Z.
    { injection Hrun as <- _. simpl. apply list_subseteq_nil. }
    destruct (start_idx self >=? Z.of_nat (length cands))%Z; [done|].
    destruct (end_idx self cands >=? Z.of_nat (length cands))%Z;
      destruct (uids_of _ _); try done;
      injection Hrun as <- _; simpl; apply slice_subseteq.
  - destruct (uids_of _ _); [|done]. by injection Hrun as <- _.
Qed.

Lemma example_registry_ok : registry_ok (metagraph example_validator).
Proof. split; [reflexivity|]. compute_done. Qed.

(** C1. Over a registry as the chain keeps it (uid = position, hotkeys
    distinct) and the axons of that registry, every axon in the list that
    [get_uids_to_query] returns belongs to a neuron with stake >= 0, an IP
    other than "0.0.0.0" and a hotkey outside the blacklist; the mask the
    source writes as [logical_not(~blacklisted | ~invalid | ~stake)] is the
    conjunction of the three keep flags. *)
Theorem get_uids_to_query_keeps_only_valid (self self' : Validator)
    (r : QueryTargets) :
  registry_ok (metagraph self) ->
  get_uids_to_query self (Metagraph.axons (metagraph self)) = (Ok r, self') ->
  (forall blacklisted_tensor invalid with_stake : list bool,
     uids_to_filter blacklisted_tensor invalid with_stake
     = zip_with andb (zip_with andb blacklisted_tensor invalid) with_stake) /\
  forall a, a ∈ queried r ->
    exists n, n ∈ Metagraph.neurons (metagraph self) /\ axon_info n = a /\
      0 <= stake n /\ ip a <> "0.0.0.0" /\
      forall blacklist, blacklisted_miner_hotkeys self = Some blacklist ->
                        hotkey a ∉ blacklist.
Proof.
  intros Hok Hrun. split; [apply uids_to_filter_conjunction|].
  destruct (get_uids_to_query_queried _ _ _ _ Hrun)
    as (cands & bl & nq & Hsel & Hsub).
  intros a Ha. eapply select_candidates_keep; eauto.
Qed.

(** The first round of the example: alice and erin are queried; bob
    (negative stake), carol (no address) and dave (blacklisted) never are. *)
Lemma get_uids_to_query_example :
  registry_ok (metagraph example_validator) /\
  get_uids_to_query example_validator example_axons
  = (Ok (Tuple4 [ {| ip := "10.0.0.1"; hotkey := "alice" |};
                  {| ip := "10.0.0.5"; hotkey := "erin" |} ]
           [0; 4]%nat [3]%nat [1; 2; 3]%nat),
     set_target_group example_validator 1) /\
  forall a, a ∈ [ {| ip := "10.0.0.1"; hotkey := "alice" |};
                  {| ip := "10.0.0.5"; hotkey := "erin" |} ] ->
    exists n, n ∈ example_registry /\ axon_info n = a /\
      0 <= stake n /\ ip a <> "0.0.0.0" /\ hotkey a ∉ ["dave"].
Proof.
  assert (Hrun : get_uids_to_query example_validator example_axons
    = (Ok (Tuple4 [ {| ip := "10.0.0.1"; hotkey := "alice" |};
                    {| ip := "10.0.0.5"; hotkey := "erin" |} ]
             [0; 4]%nat [3]%nat [1; 2; 3]%nat),
       set_target_group example_validator 1)) by (by vm_compute).
  split; [exact example_registry_ok|]. split; [exact Hrun|].
  intros a Ha.
  destruct (proj2 (get_uids_to_query_keeps_only_valid example_validator _ _
                     example_registry_ok Hrun) a Ha)
    as (n & Hn & Hax & Hstake & Hip & Hbl).
  exists n. repeat split; try done. by apply Hbl.
Defined.

(** ** Target selection: pagination *)

Lemma set_target_group_same (self : Validator) (v : Z) :
  target_group self = v -> set_target_group self v = self.
Proof. destruct self. simpl. by intros ->. Qed.

Lemma query_targets_ok (self : Validator) (uids_to_query : list AxonInfo)
    (blacklisted not_queried uids : list nat) :
  uids_of (metagraph self) uids_to_query = Ok uids ->
  query_targets self uids_to_query blacklisted not_queried
  = (Ok (Tuple4 uids_to_query uids blacklisted not_queried), self).
Proof. intros Huids. unfold query_targets. by rewrite Huids. Qed.

(** The pagination on an empty page and on a cursor past the end. *)
Lemma get_uids_to_query_edges (self : Validator) (all_axons cands : list AxonInfo)
    (blacklisted not_queried : list nat) :
  select_candidates self all_axons = Ok (cands, blacklisted, not_queried) ->
  (max_targets self < 256)%Z ->
  (start_idx self = end_idx self cands ->
   get_uids_to_query self all_axons = (Ok (Tuple2 [] []), self)) /\
  (start_idx self <> end_idx self cands ->
   (start_idx self >= Z.of_nat (length cands))%Z ->
   get_uids_to_query self all_axons = (Raise IndexError, self)).
Proof.
  intros Hsel Hmax. unfold get_uids_to_query. rewrite Hsel.
  destruct (Z.ltb_spec (max_targets self) 256); [|lia].
  split.
  - intros ->. by rewrite Z.eqb_refl.
  - intros Hne Hge.
    destruct (Z.eqb_spec (start_idx self) (end_idx self cands)); [done|].
    rewrite Z.geb_leb.
    destruct (Z.leb_spec (Z.of_nat (length cands)) (start_idx self)); [done|lia].
Qed.

(** C3, as the code has it.  Let the page size be at least the size of the
    filtered population.  With a page size of 256 or more nothing is sliced:
    the full filtered list is returned and the cursor is left alone.  With a
    page size under 256 the slicing runs: from cursor 0 it returns the full
    filtered list (the empty pair, if nobody is left) and the cursor stays 0;
    from a cursor above 0 it returns the empty pair or raises [IndexError],
    and the cursor stays where it was. *)
Theorem get_uids_to_query_single_page (self : Validator)
    (all_axons cands : list AxonInfo) (blacklisted not_queried uids : list nat) :
  select_candidates self all_axons = Ok (cands, blacklisted, not_queried) ->
  uids_of (metagraph self) cands = Ok uids ->
  (Z.of_nat (length cands) <= max_targets self)%Z ->
  ((256 <= max_targets self)%Z ->
   get_uids_to_query self all_axons
   = (Ok (Tuple4 cands uids blacklisted not_queried), self)) /\
  ((max_targets self < 256)%Z -> target_group self = 0%Z ->
   get_uids_to_query self all_axons
   = (Ok (if decide (cands = []) then Tuple2 [] []
          else Tuple4 cands uids blacklisted not_queried), self)) /\
  ((max_targets self < 256)%Z -> (0 < target_group self)%Z ->
   get_uids_to_query self all_axons = (Ok (Tuple2 [] []), self) \/
   get_uids_to_query self all_axons = (Raise IndexError, self)).
Proof.
  intros Hsel Huids Hfit. split; [|split].
  - intros Hbig. unfold get_uids_to_query. rewrite Hsel.
    destruct (Z.ltb_spec (max_targets self) 256); [lia|].
    by apply query_targets_ok.
  - intros Hsmall Hcursor.
    assert (Hstart : start_idx self = 0%Z) by (unfold start_idx; lia).
    assert (Hend : end_idx self cands = Z.of_nat (length cands)).
    { unfold end_idx. rewrite Hcursor. lia. }
    destruct (decide (cands = [])) as [->|Hsome].
    + apply (get_uids_to_query_edges _ _ _ _ _ Hsel Hsmall).
      by rewrite Hstart, Hend.
    + assert (0 < Z.of_nat (length cands))%Z by (destruct cands; [done|simpl; lia]).
      unfold get_uids_to_query. rewrite Hsel.
      destruct (Z.ltb_spec (max_targets self) 256); [|lia].
      rewrite Hstart, Hend.
      destruct (Z.eqb_spec 0 (Z.of_nat (length cands))); [lia|].
      rewrite !Z.geb_leb.
      destruct (Z.leb_spec (Z.of_nat (length cands)) 0); [lia|].
      rewrite Z.leb_refl.
      rewrite (set_target_group_same self 0 Hcursor), slice_all.
      by apply query_targets_ok.
  - intros Hsmall Hcursor.
    assert (Hend : end_idx self cands = Z.of_nat (length cands)).
    { unfold end_idx. nia. }
    assert (Hstart : (start_idx self >= Z.of_nat (length cands))%Z).
    { unfold start_idx. nia. }
    destruct (get_uids_to_query_edges _ _ _ _ _ Hsel Hsmall) as [Hempty Hpast].
    destruct (decide (start_idx self = end_idx self cands)) as [Heq|Hne].
    + left. by apply Hempty.
    + right. by apply Hpast.
Qed.

(** Five targets a round cover the three miners left: one page, cursor 0. *)
Lemma get_uids_to_query_single_page_example :
  let self := with_max_targets example_validator 5 in
  let cands := [ {| ip := "10.0.0.1"; hotkey := "alice" |};
                 {| ip := "10.0.0.5"; hotkey := "erin" |};
                 {| ip := "10.0.0.6"; hotkey := "frank" |} ] in
  select_candidates self example_axons = Ok (cands, [3]%nat, [1; 2; 3]%nat) /\
  uids_of (metagraph self) cands = Ok [0; 4; 5]%nat /\
  (Z.of_nat (length cands) <= max_targets self)%Z /\
  get_uids_to_query self example_axons
  = (Ok (Tuple4 cands [0; 4; 5]%nat [3]%nat [1; 2; 3]%nat), self).
Proof.
  intros self cands.
  assert (Hsel : select_candidates self example_axons
                 = Ok (cands, [3]%nat, [1; 2; 3]%nat)) by (by vm_compute).
  assert (Huids : uids_of (metagraph self) cands = Ok [0; 4; 5]%nat)
    by (by vm_compute).
  assert (Hfit : (Z.of_nat (length cands) <= max_targets self)%Z)
    by (simpl; lia).
  split; [exact Hsel|]. split; [exact Huids|]. split; [exact Hfit|].
  exact (proj1 (proj2 (get_uids_to_query_single_page self example_axons cands
                         _ _ _ Hsel Huids Hfit))
           ltac:(simpl; lia) eq_refl).
Defined.

(** Two miners are left and the page size is two, but the cursor is at 1
    from the round before: the page is empty, not the full list. *)
Lemma get_uids_to_query_stale_cursor :
  let cands := [ {| ip := "10.0.0.1"; hotkey := "alice" |};
                 {| ip := "10.0.0.5"; hotkey := "erin" |} ] in
  select_candidates shrunk_validator example_axons
  = Ok (cands, [3; 5]%nat, [1; 2; 3; 5]%nat) /\
  (Z.of_nat (length cands) <= max_targets shrunk_validator)%Z /\
  target_group shrunk_validator = 1%Z /\
  get_uids_to_query shrunk_validator example_axons
  = (Ok (Tuple2 [] []), shrunk_validator) /\
  queried (Tuple2 [] []) <> cands.
Proof.
  intros cands. split; [by vm_compute|]. split; [by vm_compute|].
  split; [by vm_compute|]. split; [by vm_compute|]. discriminate.
Qed.




(** C10. The empty page of the paginating branch is returned as a pair of
    two empty lists; every other value [get_uids_to_query] returns has the
    four components [uids_to_query], [list_of_uids], [blacklisted_uids] and
    [uids_not_to_query]. *)
Theorem get_uids_to_query_result_shape (self : Validator)
    (all_axons cands : list AxonInfo) (blacklisted not_queried : list nat) :
  select_candidates self all_axons = Ok (cands, blacklisted, not_queried) ->
  ((max_targets self < 256)%Z -> start_idx self = end_idx self cands ->
   get_uids_to_query self all_axons = (Ok (Tuple2 [] []), self)) /\
  (forall r self',
     get_uids_to_query self all_axons = (Ok r, self') ->
     ~ ((max_targets self < 256)%Z /\ start_idx self = end_idx self cands) ->
     exists uids_to_query list_of_uids,
       r = Tuple4 uids_to_query list_of_uids blacklisted not_queried).
Proof.
  intros Hsel. split.
  - intros Hsmall. by apply (get_uids_to_query_edges _ _ _ _ _ Hsel Hsmall).
  - intros r self'. unfold get_uids_to_query, query_targets. rewrite Hsel.
    destruct (Z.ltb_spec (max_targets self) 256) as [Hsmall|Hbig].
    + destruct (Z.eqb_spec (start_idx self) (end_idx self cands)) as [Heq|Hne].
      { intros _ Hnot. exfalso. by apply Hnot. }
      destruct (start_idx self >=? Z.of_nat (length cands))%Z; [done|].
      destruct (end_idx self cands >=? Z.of_nat (length cands))%Z;
        destruct (uids_of _ _); try done;
        intros [= <- _] _; by eexists _, _.
    + destruct (uids_of _ _); [|done]. intros [= <- _] _. by eexists _, _.
Qed.

(** The two shapes side by side: the first round of the example returns
    four values, the round on the stale cursor returns two. *)
Lemma get_uids_to_query_result_shape_example :
  select_candidates shrunk_validator example_axons
  = Ok ([ {| ip := "10.0.0.1"; hotkey := "alice" |};
          {| ip := "10.0.0.5"; hotkey := "erin" |} ], [3; 5]%nat, [1; 2; 3; 5]%nat) /\
  (max_targets shrunk_validator < 256)%Z /\
  start_idx shrunk_validator
  = end_idx shrunk_validator [ {| ip := "10.0.0.1"; hotkey := "alice" |};
                               {| ip := "10.0.0.5"; hotkey := "erin" |} ] /\
  get_uids_to_query shrunk_validator example_axons
  = (Ok (Tuple2 [] []), shrunk_validator).
Proof.
  assert (Hsel : select_candidates shrunk_validator example_axons
    = Ok ([ {| ip := "10.0.0.1"; hotkey := "alice" |};
            {| ip := "10.0.0.5"; hotkey := "erin" |} ], [3; 5]%nat,
          [1; 2; 3; 5]%nat)) by (by vm_compute).
  assert (Hsmall : (max_targets shrunk_validator < 256)%Z) by (by vm_compute).
  assert (Hpage : start_idx shrunk_validator
    = end_idx shrunk_validator [ {| ip := "10.0.0.1"; hotkey := "alice" |};
                                 {| ip := "10.0.0.5"; hotkey := "erin" |} ])
    by (by vm_compute).
  split; [exact Hsel|]. split; [exact Hsmall|]. split; [exact Hpage|].
  exact (proj1 (get_uids_to_query_result_shape shrunk_validator example_axons
                  _ _ _ Hsel) Hsmall Hpage).
Defined.

(** * Further properties *)

(** ** Scoring *)

Lemma index_Raise {A} `{EqDecision A} (x : A) (l : list A) (e : exn) :
  index x l = Raise e <-> e = ValueError /\ x ∉ l.
Proof.
  induction l as [|y l IH]; simpl.
  - split; [intros [= <-]; split; [done|apply not_elem_of_nil]|by intros [-> _]].
  - destruct (decide (y = x)) as [->|Hne].
    + split; [done|]. intros [_ Hout]. exfalso. apply Hout. left.
    + rewrite not_elem_of_cons. destruct (index x l) as [i|e']; simpl.
      * split; [done|]. intros [He [_ Hout]].
        discriminate (proj2 IH (conj He Hout)).
      * split.
        -- intros [= ->]. destruct (proj1 IH eq_refl) as [-> Hout]. by repeat split.
        -- intros [-> [_ Hout]]. by apply IH.
Qed.

Lemma half_tenth (x : Q) : x / 2 / 10 == x * (1 # 20).
Proof. field. Qed.



(** X2. The multipliers of [get_response_penalties] do not grow with the
    penalties: a larger base penalty never gives a larger distance
    multiplier, and a larger sum of similarity and duplicate penalties never
    gives a larger speed multiplier. *)
Theorem penalty_multipliers_monotone
    (similarity base duplicate similarity' base' duplicate' : Q) :
  (base <= base' ->
   (penalty_multipliers similarity' base' duplicate').1
   <= (penalty_multipliers similarity base duplicate).1) /\
  (similarity + duplicate <= similarity' + duplicate' ->
   (penalty_multipliers similarity' base' duplicate').2
   <= (penalty_multipliers similarity base duplicate).2).
Proof.
  unfold penalty_multipliers; simpl. split.
  - intros Hle.
    destruct (Qge_bool base 20) eqn:H1; destruct (Qge_bool base' 20) eqn:H1';
      destruct (Qlt_bool 0 base) eqn:H2; destruct (Qlt_bool 0 base') eqn:H2';
      rewrite ?Qge_bool_iff, ?Qge_bool_false, ?Qlt_bool_iff, ?Qlt_bool_false in *;
      rewrite ?half_tenth; lra.
  - intros Hle.
    set (s := 0 + similarity + duplicate) in *.
    set (s' := 0 + similarity' + duplicate') in *.
    assert (Hs : s <= s') by (unfold s, s'; lra).
    destruct (Qge_bool s 20) eqn:H1; destruct (Qge_bool s' 20) eqn:H1';
      destruct (Qlt_bool 0 s) eqn:H2; destruct (Qlt_bool 0 s') eqn:H2';
      rewrite ?Qge_bool_iff, ?Qge_bool_false, ?Qlt_bool_iff, ?Qlt_bool_false in *;
      rewrite ?half_tenth; lra.
Qed.

(** Base penalties 5 and 10: multipliers 0.75 and 0.5. *)
Lemma penalty_multipliers_monotone_example :
  5 <= 10 /\
  (penalty_multipliers 0 10 0).1 <= (penalty_multipliers 0 5 0).1 /\
  (penalty_multipliers 0 10 0).1 == 0.5 /\ (penalty_multipliers 0 5 0).1 == 0.75.
Proof.
  assert (H : 5 <= 10) by lra.
  split; [exact H|]. split.
  - exact (proj1 (penalty_multipliers_monotone 0 5 0 0 10 0) H).
  - split; reflexivity.
Defined.

Lemma apply_penalty_Raise
    (similarity_check_penalty : nat -> list Response -> Q)
    (base_check_penalty : nat -> list Response -> Response -> string -> Q)
    (duplicate_check_penalty : nat -> list Response -> Response -> Q)
    (self : Validator) (response : Response) (hotkey prompt : string) (e : exn) :
  apply_penalty similarity_check_penalty base_check_penalty duplicate_check_penalty
    self response hotkey prompt = Raise e <->
  e = ValueError /\
  (exists responses history,
     miner_responses self = Some responses /\ responses !! hotkey = Some history) /\
  hotkey ∉ Metagraph.hotkeys (metagraph self).
Proof.
  unfold apply_penalty.
  destruct (miner_responses self) as [responses|].
  2:{ split; [done|]. by intros (_ & (? & ? & [=] & _) & _). }
  destruct (decide (responses = ∅)) as [->|Hsome].
  { split; [done|]. intros (_ & (r & h & [= <-] & Hh) & _).
    by rewrite lookup_empty in Hh. }
  destruct (responses !! hotkey) as [history|] eqn:Hhist.
  2:{ split; [done|]. intros (_ & (r & h & [= <-] & Hh) & _). congruence. }
  destruct (index hotkey (Metagraph.hotkeys (metagraph self))) as [uid|e'] eqn:Hidx;
    simpl.
  - split; [done|]. intros (He & _ & Hout).
    assert (index hotkey (Metagraph.hotkeys (metagraph self)) = Raise e)
      by (by apply index_Raise).
    congruence.
  - split.
    + intros [= ->]. apply index_Raise in Hidx as [-> Hout].
      split; [done|]. split; [by exists responses, history|done].
    + intros (-> & _ & _). apply index_Raise in Hidx as [-> _]. done.
Qed.

(** X3. With both subscores in [0,1], [calculate_score] returns the result
    built from the weighted sum: total 0.85 * distance * its multiplier plus
    0.15 * speed * its multiplier, the two weighted parts, the two
    multipliers and the two raw subscores.  The second range check never
    replaces it by the zero result. *)
Theorem calculate_score_valid
    (similarity_check_penalty : nat -> list Response -> Q)
    (base_check_penalty : nat -> list Response -> Response -> string -> Q)
    (duplicate_check_penalty : nat -> list Response -> Response -> Q)
    (subscore_distance : Response -> Q -> option Q)
    (subscore_speed : Q -> Q -> option Q)
    (self : Validator) (response : Response) (target : Q) (prompt : string)
    (response_time : Q) (hotkey : string) (dm sm : Q) :
  let d := default 0 (subscore_distance response target) in
  let s := default 0 (subscore_speed (timeout self) response_time) in
  0 <= d <= 1 -> 0 <= s <= 1 ->
  get_response_penalties similarity_check_penalty base_check_penalty
    duplicate_check_penalty self response hotkey prompt = Ok (dm, sm) ->
  calculate_score similarity_check_penalty base_check_penalty
    duplicate_check_penalty subscore_distance subscore_speed
    self response target prompt response_time hotkey
  = Ok (get_engine_response_object (0.85 * d * dm + 0.15 * s * sm)
          (0.85 * d * dm) (0.15 * s * sm) dm sm d s).
Proof.
  intros d s Hd Hs Hpen. unfold calculate_score. fold d s.
  rewrite (proj2 (validate_numerical_value_iff d 0 1) Hd).
  rewrite (proj2 (validate_numerical_value_iff s 0 1) Hs). simpl.
  rewrite Hpen. simpl. rewrite calculate_penalized_scores_weights. simpl.
  destruct (get_response_penalties_bounds _ _ _ _ _ _ _ _ _ Hpen) as [Hdm Hsm].
  pose proof (weighted_sum_bounds _ _ _ _ Hd Hs Hdm Hsm) as (H1 & H2 & H3 & H4).
  rewrite (proj2 (validate_numerical_value_iff (0.85 * d * dm + 0.15 * s * sm) 0 1))
    by lra.
  rewrite (proj2 (validate_numerical_value_iff (0.85 * d * dm) 0 1)) by lra.
  rewrite (proj2 (validate_numerical_value_iff (0.15 * s * sm) 0 1)) by lra.
  reflexivity.
Qed.

(** A first answer of a miner: the fixed penalties halve the speed part. *)
Lemma calculate_score_valid_example :
  0 <= 0.8 <= 1 /\ 0 <= 0.9 <= 1 /\
  get_response_penalties (fun _ _ => 0) (fun _ _ _ _ => 0) (fun _ _ _ => 0)
    example_validator example_response "alice" "prompt" = Ok (15 # 20, 10 # 20) /\
  calculate_score (fun _ _ => 0) (fun _ _ _ _ => 0) (fun _ _ _ => 0)
    (fun _ _ => Some 0.8) (fun _ _ => Some 0.9)
    example_validator example_response 1 "prompt" 1.2 "alice"
  = Ok (get_engine_response_object
          (0.85 * 0.8 * (15 # 20) + 0.15 * 0.9 * (10 # 20))
          (0.85 * 0.8 * (15 # 20)) (0.15 * 0.9 * (10 # 20))
          (15 # 20) (10 # 20) 0.8 0.9).
Proof.
  assert (Hd : 0 <= 0.8 <= 1) by lra.
  assert (Hs : 0 <= 0.9 <= 1) by lra.
  assert (Hpen : get_response_penalties (fun _ _ => 0) (fun _ _ _ _ => 0)
                   (fun _ _ _ => 0) example_validator example_response "alice"
                   "prompt" = Ok (15 # 20, 10 # 20)) by (by vm_compute).
  split; [exact Hd|]. split; [exact Hs|]. split; [exact Hpen|].
  exact (calculate_score_valid _ _ _ (fun _ _ => Some 0.8) (fun _ _ => Some 0.9)
           example_validator example_response 1 "prompt" 1.2 "alice" _ _
           Hd Hs Hpen).
Defined.

(** X4. A miner that left the registry.  When both subscores are in [0,1]
    and the hotkey has a history in [miner_responses] but is no longer in the
    metagraph, [calculate_score] raises [ValueError] (from the lookup of the
    uid in [apply_penalty]).  When a subscore is out of [0,1] the call
    returns the zero result before that lookup, so it does not raise even
    for such a hotkey. *)
Theorem calculate_score_raises
    (similarity_check_penalty : nat -> list Response -> Q)
    (base_check_penalty : nat -> list Response -> Response -> string -> Q)
    (duplicate_check_penalty : nat -> list Response -> Response -> Q)
    (subscore_distance : Response -> Q -> option Q)
    (subscore_speed : Q -> Q -> option Q)
    (self : Validator) (response : Response) (target : Q) (prompt : string)
    (response_time : Q) (hotkey : string) :
  let d := default 0 (subscore_distance response target) in
  let s := default 0 (subscore_speed (timeout self) response_time) in
  (exists responses history,
     miner_responses self = Some responses /\ responses !! hotkey = Some history) ->
  hotkey ∉ Metagraph.hotkeys (metagraph self) ->
  (0 <= d <= 1 -> 0 <= s <= 1 ->
   calculate_score similarity_check_penalty base_check_penalty
     duplicate_check_penalty subscore_distance subscore_speed
     self response target prompt response_time hotkey = Raise ValueError) /\
  (~ 0 <= d <= 1 \/ ~ 0 <= s <= 1 ->
   calculate_score similarity_check_penalty base_check_penalty
     duplicate_check_penalty subscore_distance subscore_speed
     self response target prompt response_time hotkey
   = Ok (get_engine_response_object 0 0 0 0 0 0 0)).
Proof.
  intros d s Hhistory Hgone. rewrite calculate_score_cases. fold d s. split.
  - intros Hd Hs.
    rewrite (proj2 (validate_numerical_value_iff d 0 1) Hd).
    rewrite (proj2 (validate_numerical_value_iff s 0 1) Hs). simpl.
    unfold get_response_penalties.
    assert (Hpen : apply_penalty similarity_check_penalty base_check_penalty
                     duplicate_check_penalty self response hotkey prompt
                   = Raise ValueError) by (by apply apply_penalty_Raise).
    by rewrite Hpen.
  - intros [Hout|Hout];
      apply validate_numerical_value_false in Hout; rewrite Hout; simpl;
      [done|by rewrite orb_true_r].
Qed.

(** Zed answered before and has since been deregistered. *)
Lemma calculate_score_raises_example :
  let self := with_miner_responses example_validator
                (Some {[ "zed" := [example_response] ]}) in
  (exists responses history,
     miner_responses self = Some responses /\ responses !! "zed" = Some history) /\
  ("zed" ∉ Metagraph.hotkeys (metagraph self)) /\
  calculate_score (fun _ _ => 0) (fun _ _ _ _ => 0) (fun _ _ _ => 0)
    (fun _ _ => Some 0.8) (fun _ _ => Some 0.9)
    self example_response 1 "prompt" 1.2 "zed" = Raise ValueError /\
  calculate_score (fun _ _ => 0) (fun _ _ _ _ => 0) (fun _ _ _ => 0)
    (fun _ _ => Some 1.2) (fun _ _ => Some 0.9)
    self example_response 1 "prompt" 1.2 "zed"
  = Ok (get_engine_response_object 0 0 0 0 0 0 0).
Proof.
  intros self.
  assert (Hhistory : exists responses history,
            miner_responses self = Some responses /\
            responses !! "zed" = Some history).
  { exists {[ "zed" := [example_response] ]}, [example_response].
    split; [reflexivity|]. by vm_compute. }
  assert (Hgone : "zed" ∉ Metagraph.hotkeys (metagraph self)) by compute_done.
  split; [exact Hhistory|]. split; [exact Hgone|]. split.
  - apply (calculate_score_raises (fun _ _ => 0) (fun _ _ _ _ => 0)
             (fun _ _ _ => 0) (fun _ _ => Some 0.8) (fun _ _ => Some 0.9)
             self example_response 1 "prompt" 1.2 "zed" Hhistory Hgone);
      simpl; lra.
  - apply (calculate_score_raises (fun _ _ => 0) (fun _ _ _ _ => 0)
             (fun _ _ _ => 0) (fun _ _ => Some 1.2) (fun _ _ => Some 0.9)
             self example_response 1 "prompt" 1.2 "zed" Hhistory Hgone).
    left. simpl. lra.
Defined.

(** ** Membership changes, again *)

Lemma reset_replaced_same (old_hotkeys : list string)
    (entries : list (nat * string)) (scores : list Q) :
  (forall i h, (i, h) ∈ entries -> old_hotkeys !! i = Some h) ->
  reset_replaced old_hotkeys entries scores = (Ok (), scores).
Proof.
  induction entries as [|[i h] rest IH]; intros Hsame; simpl; [done|].
  rewrite (Hsame i h) by left.
  destruct (decide (h ≠ h)); [done|].
  apply IH. intros j k Hj. apply Hsame. by right.
Qed.

Lemma set_hotkeys_same (self : Validator) (v : option (list string)) :
  hotkeys self = v -> set_hotkeys self v = self.
Proof. destruct self. simpl. by intros ->. Qed.

Lemma set_scores_same (self : Validator) (v : list Q) :
  scores self = v -> set_scores self v = self.
Proof. destruct self. simpl. by intros ->. Qed.

(** X5. [check_hotkeys] settles at once: after a call that returned, a
    second call against the same metagraph returns too and changes neither
    the scores nor the snapshot nor anything else. *)
Theorem check_hotkeys_idempotent (self self' : Validator) :
  check_hotkeys self = (Ok (), self') ->
  check_hotkeys self' = (Ok (), self').
Proof.
  intros Hrun.
  assert (Hm : metagraph self' = metagraph self /\
               hotkeys self' = Some (Metagraph.hotkeys (metagraph self))).
  { unfold check_hotkeys in Hrun.
    destruct (hotkeys self) as [[|h old]|].
    - by injection Hrun as <-.
    - destruct (decide _) as [Hlen|Hlen].
      + destruct (reset_replaced _ _ _) as [[[]|err] scores']; [|done].
        by injection Hrun as <-.
      + by injection Hrun as <-.
    - by injection Hrun as <-. }
  destruct Hm as [Hm Hsnap]. unfold check_hotkeys. rewrite Hsnap, Hm.
  destruct (Metagraph.hotkeys (metagraph self)) as [|h current] eqn:Hcur.
  - f_equal. by apply set_hotkeys_same.
  - destruct (decide (length (h :: current) = length (h :: current))); [|done].
    rewrite reset_replaced_same.
    + f_equal. rewrite set_scores_same by done. by apply set_hotkeys_same.
    + intros i k Hik. by apply elem_of_enumerate.
Qed.

(** The slot-reuse example run twice. *)
Lemma check_hotkeys_idempotent_example :
  let self :=
    set_scores
      (set_hotkeys
         (with_registry idle_validator
            [neuron 0 1 "10.0.0.1" "alice"; neuron 1 1 "10.0.0.2" "dave"])
         (Some ["alice"; "bob"]))
      [0.3; 0.6] in
  check_hotkeys self = (Ok (), snd (check_hotkeys self)) /\
  scores (snd (check_hotkeys self)) = [0.3; 0] /\
  check_hotkeys (snd (check_hotkeys self)) = (Ok (), snd (check_hotkeys self)).
Proof.
  intros self.
  assert (Hrun : check_hotkeys self = (Ok (), snd (check_hotkeys self)))
    by reflexivity.
  split; [exact Hrun|]. split; [reflexivity|].
  exact (check_hotkeys_idempotent self _ Hrun).
Defined.

Lemma reset_replaced_raises (old_hotkeys : list string)
    (entries : list (nat * string)) (scores : list Q) :
  (forall i h, (i, h) ∈ entries -> is_Some (old_hotkeys !! i)) ->
  (exists i h, (i, h) ∈ entries /\ old_hotkeys !! i <> Some h /\
               (length scores <= i)%nat) ->
  exists scores', reset_replaced old_hotkeys entries scores
                  = (Raise IndexError, scores').
Proof.
  revert scores.
  induction entries as [|[i h] rest IH]; intros scores Hold (j & k & Hjk & Hdiff & Hshort).
  { by apply elem_of_nil in Hjk. }
  simpl. destruct (Hold i h) as [old Hi]; [left|]. rewrite Hi.
  assert (Hrest : forall i h, (i, h) ∈ rest -> is_Some (old_hotkeys !! i)).
  { intros i' h' Hin. apply (Hold i' h'). by right. }
  apply elem_of_cons in Hjk as [[= -> ->]|Hjk].
  - destruct (decide (old ≠ h)) as [_|Hsame]; [|apply dec_stable in Hsame; congruence].
    destruct (decide (i < length scores)%nat); [lia|]. by eexists.
  - destruct (decide (old ≠ h)).
    + destruct (decide (i < length scores)%nat); [|by eexists].
      apply IH; [exact Hrest|]. exists j, k. by rewrite length_insert.
    + apply IH; [exact Hrest|]. by exists j, k.
Qed.

Lemma reset_replaced_Raise_inv (old_hotkeys : list string)
    (entries : list (nat * string)) (scores scores' : list Q) (e : exn) :
  (forall i h, (i, h) ∈ entries -> is_Some (old_hotkeys !! i)) ->
  reset_replaced old_hotkeys entries scores = (Raise e, scores') ->
  e = IndexError /\
  exists i h, (i, h) ∈ entries /\ old_hotkeys !! i <> Some h /\
              (length scores <= i)%nat.
Proof.
  revert scores.
  induction entries as [|[i h] rest IH]; intros scores Hold; simpl; [done|].
  destruct (Hold i h) as [old Hi]; [left|]. rewrite Hi.
  assert (Hrest : forall i h, (i, h) ∈ rest -> is_Some (old_hotkeys !! i)).
  { intros i' h' Hin. apply (Hold i' h'). by right. }
  destruct (decide (old ≠ h)) as [Hne|_].
  - destruct (decide (i < length scores)%nat).
    + intros Hrun. destruct (IH _ Hrest Hrun) as (-> & j & k & Hjk & Hdiff & Hshort).
      split; [done|]. exists j, k. rewrite length_insert in Hshort.
      split; [by right|done].
    + intros [= <- <-]. split; [done|]. exists i, h.
      split; [left|]. split; [congruence|lia].
  - intros Hrun. destruct (IH _ Hrest Hrun) as (-> & j & k & Hjk & Hdiff & Hshort).
    split; [done|]. exists j, k. split; [by right|done].
Qed.

(** X6. [check_hotkeys] raises in one case only: the stored snapshot is not
    empty and as long as the current hotkeys, and some position whose hotkey
    changed lies beyond the end of the scores; the exception is
    [IndexError], and the stored snapshot is then left as it was. *)
Theorem check_hotkeys_raises (self : Validator) (e : exn) :
  let current_hotkeys := Metagraph.hotkeys (metagraph self) in
  fst (check_hotkeys self) = Raise e <->
  e = IndexError /\
  hotkeys (snd (check_hotkeys self)) = hotkeys self /\
  exists old_hotkeys (i : nat),
    hotkeys self = Some old_hotkeys /\
    length old_hotkeys = length current_hotkeys /\
    (i < length old_hotkeys)%nat /\
    old_hotkeys !! i <> current_hotkeys !! i /\
    (length (scores self) <= i)%nat.
Proof.
  intros current. unfold check_hotkeys. fold current.
  destruct (hotkeys self) as [[|h old]|] eqn:Hsnap.
  - simpl. split; [done|].
    intros (_ & _ & o & i & [= <-] & _ & Hi & _). simpl in Hi. lia.
  - destruct (decide (length (h :: old) = length current)) as [Hlen|Hlen].
    + assert (Hold : forall i k, (i, k) ∈ enumerate current ->
                                 is_Some ((h :: old) !! i)).
      { intros i k Hik. apply elem_of_enumerate, lookup_lt_Some in Hik.
        apply lookup_lt_is_Some. lia. }
      destruct (reset_replaced (h :: old) (enumerate current) (scores self))
        as [[[]|e'] scores'] eqn:Hrun; simpl.
      * split; [done|]. intros (_ & _ & o & i & [= <-] & _ & Hi & Hdiff & Hshort).
        destruct (lookup_lt_is_Some_2 current i ltac:(lia)) as [k Hk].
        destruct (reset_replaced_raises (h :: old) (enumerate current)
                    (scores self) Hold) as [s' Hs'].
        { exists i, k. split; [by apply elem_of_enumerate|].
          split; [by rewrite <- Hk|done]. }
        congruence.
      * destruct (reset_replaced_Raise_inv _ _ _ _ _ Hold Hrun)
          as (-> & i & k & Hik & Hdiff & Hshort).
        apply elem_of_enumerate in Hik.
        split; [|by intros (-> & _)].
        intros [= <-]. split; [done|]. split; [done|].
        exists (h :: old), i. split; [done|]. split; [done|].
        split; [apply lookup_lt_Some in Hik; lia|].
        split; [by rewrite Hik|done].
    + simpl. split; [done|]. by intros (_ & _ & o & i & [= <-] & Hlen' & _).
  - simpl. split; [done|]. by intros (_ & _ & o & i & [=] & _).
Qed.

(** ** Saving and loading *)

(** X7. A state file that has the four keys read unconditionally loads as
    it is: step, scores, hotkey snapshot and last updated block come from the
    file, the blacklist comes from the file if the file has that key and is
    kept otherwise, everything else of the validator is kept, and the file
    stays where it is. *)
Theorem load_state_good_file (self : Validator) (fs : gmap string File) (now : Z)
    (d : StateDict) (file_step file_block : Z) (file_scores : list Q)
    (file_hotkeys : option (list string)) :
  fs !! state_path self = Some (PickledState d) ->
  sd_step d = Some file_step ->
  sd_scores d = Some file_scores ->
  sd_hotkeys d = Some file_hotkeys ->
  sd_last_updated_block d = Some file_block ->
  exists self',
    load_state self fs now = (Ok (), self', fs) /\
    step self' = file_step /\ scores self' = file_scores /\
    hotkeys self' = file_hotkeys /\ last_updated_block self' = file_block /\
    blacklisted_miner_hotkeys self'
    = default (blacklisted_miner_hotkeys self) (sd_blacklisted_miner_hotkeys d) /\
    metagraph self' = metagraph self /\
    miner_responses self' = miner_responses self /\
    max_targets self' = max_targets self /\
    target_group self' = target_group self /\
    timeout self' = timeout self /\ base_path self' = base_path self.
Proof.
  intros Hfile Hstep Hscores Hhotkeys Hblock.
  unfold load_state, load_state_try. rewrite Hfile. simpl.
  rewrite Hstep, Hscores, Hhotkeys, Hblock.
  destruct (sd_blacklisted_miner_hotkeys d) as [blacklist|];
    eexists; (split; [reflexivity|]); by repeat split.
Qed.

(** A file written before the blacklist was saved. *)
Lemma load_state_good_file_example :
  let self := set_blacklisted_miner_hotkeys idle_validator (Some ["dave"]) in
  let d := {| sd_step := Some 7%Z; sd_scores := Some [0.4; 0.7];
              sd_hotkeys := Some (Some ["alice"; "bob"]);
              sd_last_updated_block := Some 1200%Z;
              sd_blacklisted_miner_hotkeys := None |} in
  let fs : gmap string File := {[ "/validator/state.pt" := PickledState d ]} in
  fs !! state_path self = Some (PickledState d) /\
  exists self',
    load_state self fs 1700000000 = (Ok (), self', fs) /\
    step self' = 7%Z /\ scores self' = [0.4; 0.7] /\
    hotkeys self' = Some ["alice"; "bob"] /\
    blacklisted_miner_hotkeys self' = Some ["dave"].
Proof.
  intros self d fs.
  assert (Hfile : fs !! state_path self = Some (PickledState d)) by (by vm_compute).
  split; [exact Hfile|].
  destruct (load_state_good_file self fs 1700000000 d 7%Z 1200%Z [0.4; 0.7]
              (Some ["alice"; "bob"]) Hfile eq_refl eq_refl eq_refl eq_refl)
    as (self' & Hrun & Hstep & Hscores & Hsnap & _ & Hbl & _).
  exists self'. by repeat split.
Defined.

(** X8. What [save_state] writes, [load_state] reads back: loading into any
    validator with the same base path gives step, scores, hotkey snapshot,
    last updated block and blacklist of the validator that saved, without
    touching the file; loading into the validator that saved changes
    nothing. *)
Theorem save_state_load_state (self other : Validator) (fs : gmap string File)
    (now : Z) :
  base_path other = base_path self ->
  (exists other',
     load_state other (save_state self fs) now = (Ok (), other', save_state self fs) /\
     step other' = step self /\ scores other' = scores self /\
     hotkeys other' = hotkeys self /\
     last_updated_block other' = last_updated_block self /\
     blacklisted_miner_hotkeys other' = blacklisted_miner_hotkeys self /\
     metagraph other' = metagraph other) /\
  load_state self (save_state self fs) now = (Ok (), self, save_state self fs).
Proof.
  intros Hpath.
  assert (Hread : forall v : Validator, base_path v = base_path self ->
            save_state self fs !! state_path v
            = Some (PickledState
                      {| sd_step := Some (step self);
                         sd_scores := Some (scores self);
                         sd_hotkeys := Some (hotkeys self);
                         sd_last_updated_block := Some (last_updated_block self);
                         sd_blacklisted_miner_hotkeys :=
                           Some (blacklisted_miner_hotkeys self) |})).
  { intros v Hv. unfold save_state, state_path. rewrite Hv.
    apply lookup_insert_eq. }
  split.
  - unfold load_state, load_state_try. rewrite (Hread other Hpath). simpl.
    eexists. split; [reflexivity|]. by repeat split.
  - unfold load_state, load_state_try. rewrite (Hread self eq_refl). simpl.
    by destruct self.
Qed.

(** A validator restarted over a grown registry gets its old state back. *)
Lemma save_state_load_state_example :
  let saved :=
    set_step (set_scores (set_hotkeys idle_validator (Some ["alice"; "bob"]))
                [0.4; 0.7]) 7 in
  let restarted := with_registry idle_validator example_registry in
  base_path restarted = base_path saved /\
  exists restarted',
    load_state restarted (save_state saved ∅) 1700000000
    = (Ok (), restarted', save_state saved ∅) /\
    step restarted' = 7%Z /\ scores restarted' = [0.4; 0.7] /\
    hotkeys restarted' = Some ["alice"; "bob"].
Proof.
  intros saved restarted.
  assert (Hpath : base_path restarted = base_path saved) by reflexivity.
  split; [exact Hpath|].
  destruct (proj1 (save_state_load_state saved restarted ∅ 1700000000 Hpath))
    as (r' & Hrun & Hstep & Hscores & Hsnap & _).
  exists r'. by repeat split.
Defined.

(** ** The miner responses *)

Lemma last_100_drop {A} (l : list A) : last_100 l = drop (length l - 100) l.
Proof.
  unfold last_100, slice, slice_bound.
  destruct (Z.ltb_spec (-100) 0); [|lia].
  destruct (Z.ltb_spec (Z.of_nat (length l)) 0); [lia|].
  rewrite Z.min_id.
  replace (Z.to_nat (Z.max 0 (-100 + Z.of_nat (length l))))
    with (length l - 100)%nat by lia.
  apply take_ge. rewrite length_drop. lia.
Qed.

Lemma length_last_100 {A} (l : list A) : (length (last_100 l) <= 100)%nat.
Proof. rewrite last_100_drop, length_drop. lia. Qed.

Lemma last_100_short {A} (l : list A) : (length l <= 100)%nat -> last_100 l = l.
Proof.
  intros Hshort. rewrite last_100_drop.
  by replace (length l - 100)%nat with 0%nat by lia.
Qed.

(** X9. After [truncate_miner_state] no hotkey has more than 100 responses
    stored: each history is cut to its last 100 entries, a history of at most
    100 entries is kept whole, no hotkey is added or lost, and truncating
    twice is truncating once. *)
Theorem truncate_miner_state_bound (self : Validator) :
  (forall responses hotkey,
     miner_responses self = Some responses ->
     exists responses',
       miner_responses (truncate_miner_state self) = Some responses' /\
       responses' !! hotkey = last_100 <$> responses !! hotkey /\
       (forall history, responses' !! hotkey = Some history ->
                        (length history <= 100)%nat) /\
       (forall history, responses !! hotkey = Some history ->
                        (length history <= 100)%nat ->
                        responses' !! hotkey = Some history)) /\
  (miner_responses self = None ->
   miner_responses (truncate_miner_state self) = None) /\
  truncate_miner_state (truncate_miner_state self) = truncate_miner_state self.
Proof.
  split; [|split].
  - intros responses hotkey Hsome. unfold truncate_miner_state. rewrite Hsome.
    assert (Hcut : forall history,
              last_100 <$> responses !! hotkey = Some history ->
              (length history <= 100)%nat).
    { intros history Hh. apply fmap_Some in Hh as (old & _ & ->).
      apply length_last_100. }
    destruct (decide (responses = ∅)) as [->|Hne].
    + exists ∅. rewrite Hsome, lookup_empty. simpl. by repeat split.
    + exists (last_100 <$> responses). simpl. rewrite lookup_fmap.
      split; [done|]. split; [done|]. split; [exact Hcut|].
      intros history -> Hshort. simpl. by rewrite last_100_short.
  - intros Hnone. unfold truncate_miner_state. by rewrite Hnone.
  - unfold truncate_miner_state.
    destruct (miner_responses self) as [responses|] eqn:Hresp; [|by rewrite Hresp].
    destruct (decide (responses = ∅)) as [->|Hne].
    { rewrite Hresp. by destruct (decide _). }
    simpl. destruct (decide (last_100 <$> responses = ∅)) as [Hempty|_].
    { by apply fmap_empty_inv in Hempty. }
    unfold with_miner_responses. simpl. do 2 f_equal.
    apply map_eq. intros hotkey. rewrite !lookup_fmap.
    destruct (responses !! hotkey) as [history|]; simpl; [|done].
    f_equal. apply last_100_short, length_last_100.
Qed.

(** A history of 103 responses keeps its last 100. *)
Lemma truncate_miner_state_example :
  let self := with_miner_responses idle_validator
                (Some {[ "alice" := replicate 103 example_response ]}) in
  miner_responses self = Some {[ "alice" := replicate 103 example_response ]} /\
  exists responses',
    miner_responses (truncate_miner_state self) = Some responses' /\
    responses' !! "alice" = Some (replicate 100 example_response).
Proof.
  intros self. split; [reflexivity|].
  destruct (proj1 (truncate_miner_state_bound self)
              {[ "alice" := replicate 103 example_response ]} "alice" eq_refl)
    as (responses' & Hrun & Hcut & _).
  exists responses'. split; [exact Hrun|]. rewrite Hcut. by vm_compute.
Defined.

(** X10. What [save_miner_state] writes, [load_miner_state] reads back into
    any validator with the same base path, leaving the file in place.  A
    file that cannot be unpickled is moved to
    [<path>-<timestamp>.autorecovery] with its contents and the responses
    are unset.  Without a file the validator is left as it is.  None of the
    three raises. *)
Theorem load_miner_state_cases (self : Validator) (fs : gmap string MinerFile)
    (now : Z) :
  (forall saved : Validator,
     base_path saved = base_path self ->
     load_miner_state self (save_miner_state saved fs) now
     = (Ok (), with_miner_responses self (miner_responses saved),
        save_miner_state saved fs)) /\
  (forall raw,
     fs !! miner_state_path self = Some (MinerGarbage raw) ->
     exists fs',
       load_miner_state self fs now = (Ok (), with_miner_responses self None, fs') /\
       fs' !! miner_state_path self = None /\
       fs' !! autorecovery_path (miner_state_path self) now
       = Some (MinerGarbage raw)) /\
  (fs !! miner_state_path self = None ->
   load_miner_state self fs now = (Ok (), self, fs)).
Proof.
  split; [|split].
  - intros saved Hpath. unfold load_miner_state, save_miner_state, miner_state_path.
    by rewrite Hpath, lookup_insert_eq.
  - intros raw Hfile. unfold load_miner_state. rewrite Hfile.
    eexists. split; [reflexivity|]. split.
    + rewrite lookup_insert_ne by apply autorecovery_path_fresh.
      apply lookup_delete_eq.
    + apply lookup_insert_eq.
  - intros Hnone. unfold load_miner_state. by rewrite Hnone.
Qed.

(** The responses of one validator read by its successor. *)
Lemma load_miner_state_example :
  let saved := with_miner_responses idle_validator
                 (Some {[ "alice" := [example_response] ]}) in
  base_path saved = base_path idle_validator /\
  load_miner_state idle_validator (save_miner_state saved ∅) 1700000000
  = (Ok (), saved, save_miner_state saved ∅).
Proof.
  intros saved.
  assert (Hpath : base_path saved = base_path idle_validator) by reflexivity.
  split; [exact Hpath|].
  exact (proj1 (load_miner_state_cases idle_validator ∅ 1700000000) saved Hpath).
Defined.

(** ** Pages *)

Lemma comprehension_take_drop {A B} (f : A -> result B) (l : list A)
    (ys : list B) (n : nat) :
  comprehension f l = Ok ys ->
  comprehension f (take n l) = Ok (take n ys) /\
  comprehension f (drop n l) = Ok (drop n ys).
Proof.
  revert ys n. induction l as [|x l IH]; intros ys n; simpl.
  - intros [= <-]. by destruct n.
  - destruct (f x) as [y|] eqn:Hx; simpl; [|done].
    destruct (comprehension f l) as [ys'|] eqn:Hl; simpl; [|done].
    intros [= <-]. destruct n as [|n]; simpl.
    + by rewrite Hx, Hl.
    + destruct (IH ys' n eq_refl) as [Htake Hdrop].
      rewrite Hx, Htake. by split.
Qed.

Lemma comprehension_length {A B} (f : A -> result B) (l : list A) (ys : list B) :
  comprehension f l = Ok ys -> length ys = length l.
Proof.
  revert ys. induction l as [|x l IH]; intros ys; simpl.
  - by intros [= <-].
  - destruct (f x) as [y|]; simpl; [|done].
    destruct (comprehension f l) as [ys'|]; simpl; [|done].
    intros [= <-]. simpl. by rewrite (IH ys').
Qed.

Lemma comprehension_lookup {A B} (f : A -> result B) (l : list A) (ys : list B)
    (i : nat) (x : A) :
  comprehension f l = Ok ys -> l !! i = Some x ->
  exists y, ys !! i = Some y /\ f x = Ok y.
Proof.
  revert ys i. induction l as [|x' l IH]; intros ys i; simpl; [done|].
  destruct (f x') as [y'|] eqn:Hx; simpl; [|done].
  destruct (comprehension f l) as [ys'|] eqn:Hl; simpl; [|done].
  intros [= <-]. destruct i as [|i]; simpl.
  - intros [= <-]. by exists y'.
  - by apply IH.
Qed.

Lemma slice_take_drop {A} (l : list A) (start stop : Z) :
  (0 <= start <= stop)%Z -> (stop <= Z.of_nat (length l))%Z ->
  slice l start stop = take (Z.to_nat (stop - start)) (drop (Z.to_nat start) l).
Proof.
  intros Hstart Hstop. unfold slice, slice_bound.
  destruct (Z.ltb_spec start 0); [lia|].
  destruct (Z.ltb_spec stop 0); [lia|].
  by rewrite !Z.min_l by lia.
Qed.

Lemma select_candidates_set_target_group (self : Validator) (v : Z)
    (all_axons : list AxonInfo) :
  select_candidates (set_target_group self v) all_axons
  = select_candidates self all_axons.
Proof. reflexivity. Qed.

Lemma get_uids_to_query_page_step (self : Validator)
    (all_axons cands : list AxonInfo) (blacklisted not_queried uids : list nat) :
  select_candidates self all_axons = Ok (cands, blacklisted, not_queried) ->
  uids_of (metagraph self) cands = Ok uids ->
  (0 < max_targets self < 256)%Z ->
  (0 <= target_group self)%Z ->
  (start_idx self < Z.of_nat (length cands))%Z ->
  let page_size := Z.to_nat (max_targets self) in
  let start := Z.to_nat (start_idx self) in
  let page := take page_size (drop start cands) in
  get_uids_to_query self all_axons
  = (Ok (Tuple4 page (take page_size (drop start uids)) blacklisted not_queried),
     set_target_group self
       (if (Z.of_nat (length cands) <=? max_targets self * (target_group self + 1))%Z
        then 0%Z else (target_group self + 1)%Z)).
Proof.
  intros Hsel Huids Hmax Hcursor Hstart page_size start page.
  assert (Hstart0 : (0 <= start_idx self)%Z) by (unfold start_idx; nia).
  assert (Hnext : (max_targets self * (target_group self + 1)
                   = start_idx self + max_targets self)%Z)
    by (unfold start_idx; lia).
  unfold get_uids_to_query. rewrite Hsel.
  destruct (Z.ltb_spec (max_targets self) 256); [|lia].
  destruct (Z.eqb_spec (start_idx self) (end_idx self cands)) as [Heq|_].
  { unfold end_idx in Heq. lia. }
  rewrite !Z.geb_leb.
  destruct (Z.leb_spec (Z.of_nat (length cands)) (start_idx self)); [lia|].
  assert (Hpage_uids : forall v,
            uids_of (metagraph (set_target_group self v)) page
            = Ok (take page_size (drop start uids))).
  { intros v. unfold uids_of in *. simpl.
    destruct (comprehension_take_drop _ _ _ start Huids) as [_ Hdrop].
    by destruct (comprehension_take_drop _ _ _ page_size Hdrop) as [Htake _]. }
  unfold end_idx. rewrite Hnext.
  destruct (Z.leb_spec (Z.of_nat (length cands))
              (Z.min (Z.of_nat (length cands)) (start_idx self + max_targets self)))
    as [Hlast|Hmore].
  - destruct (Z.leb_spec (Z.of_nat (length cands))
                (start_idx self + max_targets self)); [|lia].
    rewrite slice_take_drop by lia.
    replace (take (Z.to_nat (Z.of_nat (length cands) - start_idx self))
               (drop (Z.to_nat (start_idx self)) cands)) with page.
    + by apply query_targets_ok.
    + unfold page, page_size, start.
      rewrite !take_ge; [done| |]; rewrite length_drop; lia.
  - destruct (Z.leb_spec (Z.of_nat (length cands))
                (start_idx self + max_targets self)); [lia|].
    rewrite Z.min_r by lia.
    rewrite slice_take_drop by lia.
    replace (Z.to_nat (start_idx self + max_targets self - start_idx self))
      with page_size by (unfold page_size; lia).
    by apply query_targets_ok.
Qed.

(** X11. A round of the pagination.  With a page size between 1 and 255, a
    cursor that is not negative and a start index before the end of the
    filtered list, [get_uids_to_query] returns the next [max_targets] axons
    of the filtered list from the start index on (fewer on the last page,
    never none) together with their uids; the cursor goes back to 0 when the
    page reaches the end of the list and advances by one otherwise. *)
Theorem get_uids_to_query_page (self : Validator)
    (all_axons cands : list AxonInfo) (blacklisted not_queried uids : list nat) :
  select_candidates self all_axons = Ok (cands, blacklisted, not_queried) ->
  uids_of (metagraph self) cands = Ok uids ->
  (0 < max_targets self < 256)%Z ->
  (0 <= target_group self)%Z ->
  (start_idx self < Z.of_nat (length cands))%Z ->
  let page_size := Z.to_nat (max_targets self) in
  let start := Z.to_nat (start_idx self) in
  let page := take page_size (drop start cands) in
  get_uids_to_query self all_axons
  = (Ok (Tuple4 page (take page_size (drop start uids)) blacklisted not_queried),
     set_target_group self
       (if (Z.of_nat (length cands) <=? max_targets self * (target_group self + 1))%Z
        then 0%Z else (target_group self + 1)%Z)) /\
  (0 < length page <= page_size)%nat.
Proof.
  intros Hsel Huids Hmax Hcursor Hstart page_size start page. split.
  - by apply get_uids_to_query_page_step.
  - assert (0 <= start_idx self)%Z by (unfold start_idx; nia).
    unfold page. rewrite length_take, length_drop. unfold page_size, start. lia.
Qed.

(** The second round of the example: the last miner, and the cursor back
    at 0. *)
Lemma get_uids_to_query_page_example :
  let self := set_target_group example_validator 1 in
  let cands := [ {| ip := "10.0.0.1"; hotkey := "alice" |};
                 {| ip := "10.0.0.5"; hotkey := "erin" |};
                 {| ip := "10.0.0.6"; hotkey := "frank" |} ] in
  select_candidates self example_axons = Ok (cands, [3]%nat, [1; 2; 3]%nat) /\
  uids_of (metagraph self) cands = Ok [0; 4; 5]%nat /\
  (0 < max_targets self < 256)%Z /\ (0 <= target_group self)%Z /\
  (start_idx self < Z.of_nat (length cands))%Z /\
  get_uids_to_query self example_axons
  = (Ok (Tuple4 [ {| ip := "10.0.0.6"; hotkey := "frank" |} ] [5]%nat [3]%nat
           [1; 2; 3]%nat),
     set_target_group self 0).
Proof.
  intros self cands.
  assert (Hsel : select_candidates self example_axons
                 = Ok (cands, [3]%nat, [1; 2; 3]%nat)) by (by vm_compute).
  assert (Huids : uids_of (metagraph self) cands = Ok [0; 4; 5]%nat)
    by (by vm_compute).
  assert (Hmax : (0 < max_targets self < 256)%Z) by (simpl; lia).
  assert (Hcursor : (0 <= target_group self)%Z) by (simpl; lia).
  assert (Hstart : (start_idx self < Z.of_nat (length cands))%Z)
    by (by vm_compute).
  split; [exact Hsel|]. split; [exact Huids|]. split; [exact Hmax|].
  split; [exact Hcursor|]. split; [exact Hstart|].
  exact (proj1 (get_uids_to_query_page self example_axons cands _ _ _
                  Hsel Huids Hmax Hcursor Hstart)).
Defined.

Lemma rotation_from (all_axons cands : list AxonInfo)
    (blacklisted not_queried uids : list nat) (fuel : nat) :
  forall self : Validator,
    select_candidates self all_axons = Ok (cands, blacklisted, not_queried) ->
    uids_of (metagraph self) cands = Ok uids ->
    (0 < max_targets self < 256)%Z ->
    (0 <= target_group self)%Z ->
    (start_idx self < Z.of_nat (length cands))%Z ->
    (Z.of_nat (length cands) - start_idx self <= Z.of_nat fuel)%Z ->
    exists rounds,
      rotation fuel self all_axons = (rounds, set_target_group self 0) /\
      Forall (fun r => exists targets, r = Ok targets) rounds /\
      Forall (fun r => (0 < length (queried_in r) <= Z.to_nat (max_targets self))%nat)
        rounds /\
      concat (queried_in <$> rounds) = drop (Z.to_nat (start_idx self)) cands.
Proof.
  induction fuel as [|fuel IH]; intros self Hsel Huids Hmax Hcursor Hstart Hfuel.
  { lia. }
  pose proof (get_uids_to_query_page_step self all_axons cands _ _ _
                Hsel Huids Hmax Hcursor Hstart) as Hrun.
  simpl. rewrite Hrun. clear Hrun.
  set (page := take (Z.to_nat (max_targets self))
                 (drop (Z.to_nat (start_idx self)) cands)) in *.
  assert (Hnext : (max_targets self * (target_group self + 1)
                   = start_idx self + max_targets self)%Z)
    by (unfold start_idx; lia).
  assert (Hstart0 : (0 <= start_idx self)%Z) by (unfold start_idx; nia).
  assert (Hsize : (0 < length page <= Z.to_nat (max_targets self))%nat).
  { unfold page. rewrite length_take, length_drop. lia. }
  destruct (Z.leb_spec (Z.of_nat (length cands))
              (max_targets self * (target_group self + 1))) as [Hlast|Hmore].
  - simpl. eexists. split; [reflexivity|].
    split; [repeat constructor; by eexists|].
    split; [repeat constructor; simpl; lia|].
    simpl. rewrite app_nil_r. unfold page.
    apply take_ge. rewrite length_drop. lia.
  - simpl. destruct (Z.eqb_spec (target_group self + 1) 0); [lia|].
    destruct (IH (set_target_group self (target_group self + 1)) Hsel Huids Hmax)
      as (rounds & Hrot & Hok & Hsizes & Hcat).
    { simpl. lia. }
    { unfold start_idx. simpl. lia. }
    { unfold start_idx in *. simpl. lia. }
    { rewrite Hrot. eexists. split; [reflexivity|].
      split; [constructor; [by eexists|exact Hok]|].
      split; [constructor; [simpl; lia|exact Hsizes]|].
      rewrite fmap_cons. cbn [concat queried_in queried]. rewrite Hcat.
      unfold page, start_idx. simpl.
      replace (Z.to_nat (max_targets self * (target_group self + 1)))
        with (Z.to_nat (max_targets self * target_group self)
              + Z.to_nat (max_targets self))%nat by lia.
      rewrite <- drop_drop. apply take_drop. }
Qed.

(** X12. One rotation covers the filtered list once.  With a page size
    between 1 and 255, a filtered list that is not empty and stays the same,
    and the cursor at 0, the rounds run until the cursor is back at 0 all
    return, each queries between 1 and [max_targets] axons, and the pages put
    end to end are the filtered list: no axon is skipped and none is queried
    twice.  The validator is then as it was before the rotation. *)
Theorem rotation_covers (self : Validator) (all_axons cands : list AxonInfo)
    (blacklisted not_queried uids : list nat) (fuel : nat) :
  select_candidates self all_axons = Ok (cands, blacklisted, not_queried) ->
  uids_of (metagraph self) cands = Ok uids ->
  (0 < max_targets self < 256)%Z ->
  target_group self = 0%Z ->
  cands <> [] ->
  (length cands <= fuel)%nat ->
  exists rounds,
    rotation fuel self all_axons = (rounds, self) /\
    Forall (fun r => exists targets, r = Ok targets) rounds /\
    Forall (fun r => (0 < length (queried_in r) <= Z.to_nat (max_targets self))%nat)
      rounds /\
    concat (queried_in <$> rounds) = cands.
Proof.
  intros Hsel Huids Hmax Hcursor Hsome Hfuel.
  assert (Hstart : start_idx self = 0%Z) by (unfold start_idx; lia).
  destruct (rotation_from all_axons cands blacklisted not_queried uids fuel self)
    as (rounds & Hrot & Hok & Hsizes & Hcat); try done.
  - lia.
  - rewrite Hstart. destruct cands; [done|simpl; lia].
  - lia.
  - exists rounds. rewrite Hstart in Hcat.
    by rewrite (set_target_group_same self 0 Hcursor) in Hrot.
Qed.

(** The rotation of the example: alice and erin, then frank. *)
Lemma rotation_covers_example :
  let cands := [ {| ip := "10.0.0.1"; hotkey := "alice" |};
                 {| ip := "10.0.0.5"; hotkey := "erin" |};
                 {| ip := "10.0.0.6"; hotkey := "frank" |} ] in
  select_candidates example_validator example_axons
  = Ok (cands, [3]%nat, [1; 2; 3]%nat) /\
  uids_of (metagraph example_validator) cands = Ok [0; 4; 5]%nat /\
  (0 < max_targets example_validator < 256)%Z /\
  target_group example_validator = 0%Z /\
  cands <> [] /\ (length cands <= 10)%nat /\
  exists rounds,
    rotation 10 example_validator example_axons = (rounds, example_validator) /\
    length rounds = 2%nat /\
    concat (queried_in <$> rounds) = cands.
Proof.
  intros cands.
  assert (Hsel : select_candidates example_validator example_axons
                 = Ok (cands, [3]%nat, [1; 2; 3]%nat)) by (by vm_compute).
  assert (Huids : uids_of (metagraph example_validator) cands = Ok [0; 4; 5]%nat)
    by (by vm_compute).
  assert (Hmax : (0 < max_targets example_validator < 256)%Z) by (simpl; lia).
  assert (Hsome : cands <> []) by done.
  assert (Hfuel : (length cands <= 10)%nat) by (simpl; lia).
  split; [exact Hsel|]. split; [exact Huids|]. split; [exact Hmax|].
  split; [reflexivity|]. split; [exact Hsome|]. split; [exact Hfuel|].
  destruct (rotation_covers example_validator example_axons cands _ _ _ 10
              Hsel Huids Hmax eq_refl Hsome Hfuel)
    as (rounds & Hrot & _ & _ & Hcat).
  exists rounds. split; [exact Hrot|]. split; [|exact Hcat].
  assert (Hrun : fst (rotation 10 example_validator example_axons) = rounds)
    by (by rewrite Hrot).
  rewrite <- Hrun. by vm_compute.
Defined.

(** X13. [get_uids_to_query] changes nothing of the validator but the
    cursor, whether it returns or raises; the cursor after the call is the
    cursor before, 0, or the cursor before plus one, and with a page size of
    256 or more it is the cursor before. *)
Theorem get_uids_to_query_frame (self : Validator) (all_axons : list AxonInfo) :
  let self' := snd (get_uids_to_query self all_axons) in
  self' = set_target_group self (target_group self') /\
  (target_group self' = target_group self \/ target_group self' = 0%Z \/
   target_group self' = (target_group self + 1)%Z) /\
  ((256 <= max_targets self)%Z -> self' = self).
Proof.
  assert (Hself : self = set_target_group self (target_group self))
    by (by destruct self).
  unfold get_uids_to_query, query_targets.
  destruct (select_candidates self all_axons) as [[[cands bl] nq]|]; simpl.
  2:{ split; [done|]. split; [by left|done]. }
  destruct (Z.ltb_spec (max_targets self) 256).
  - destruct (start_idx self =? end_idx self cands)%Z; simpl.
    { split; [done|]. split; [by left|done]. }
    destruct (start_idx self >=? Z.of_nat (length cands))%Z; simpl.
    { split; [done|]. split; [by left|done]. }
    destruct (end_idx self cands >=? Z.of_nat (length cands))%Z;
      destruct (uids_of _ _); simpl;
      (split; [done|]); (split; [auto|lia]).
  - destruct (uids_of _ _); simpl; (split; [done|]); (split; [by left|done]).
Qed.

(** With the default page size of 256 a round leaves the validator alone. *)
Lemma get_uids_to_query_frame_example :
  let self := with_max_targets example_validator 256 in
  (256 <= max_targets self)%Z /\
  snd (get_uids_to_query self example_axons) = self.
Proof.
  intros self.
  assert (Hbig : (256 <= max_targets self)%Z) by (simpl; lia).
  split; [exact Hbig|].
  exact (proj2 (proj2 (get_uids_to_query_frame self example_axons)) Hbig).
Defined.

(** ** The filter, seen from the registry *)

Lemma keep_mask_lookup (self : Validator) (bl : list nat) (i : nat) (n : NeuronInfo) :
  Metagraph.uids (metagraph self)
  = seq 0 (length (Metagraph.neurons (metagraph self))) ->
  Metagraph.neurons (metagraph self) !! i = Some n ->
  uids_to_filter (blacklisted_uids_tensor (metagraph self) bl)
    ((fun n => bool_decide (ip (axon_info n) ≠ "0.0.0.0"))
       <$> Metagraph.neurons (metagraph self))
    (uids_with_stake (metagraph self)) !! i
  = Some (bool_decide (i ∉ bl) && bool_decide (ip (axon_info n) ≠ "0.0.0.0")
          && Qge_bool (stake n) 0).
Proof.
  intros Huids Hn. rewrite uids_to_filter_conjunction.
  apply lookup_zip_with_Some. eexists _, _. split; [reflexivity|]. split.
  - apply lookup_zip_with_Some. eexists _, _. split; [reflexivity|]. split.
    + unfold blacklisted_uids_tensor. rewrite Huids, list_lookup_fmap.
      rewrite lookup_seq_lt by (by eapply lookup_lt_Some). done.
    + by rewrite list_lookup_fmap, Hn.
  - unfold uids_with_stake, Metagraph.total_stake.
    by rewrite !list_lookup_fmap, Hn.
Qed.

Lemma keep_mask_length (self : Validator) (bl : list nat) :
  length (uids_to_filter (blacklisted_uids_tensor (metagraph self) bl)
            ((fun n => bool_decide (ip (axon_info n) ≠ "0.0.0.0"))
               <$> Metagraph.neurons (metagraph self))
            (uids_with_stake (metagraph self)))
  = length (Metagraph.neurons (metagraph self)).
Proof.
  rewrite uids_to_filter_conjunction, !length_zip_with.
  unfold blacklisted_uids_tensor, uids_with_stake, Metagraph.total_stake,
    Metagraph.uids.
  rewrite !length_fmap. lia.
Qed.

Lemma select_candidates_inv (self : Validator) (cands : list AxonInfo)
    (bl nq : list nat) :
  Metagraph.uids (metagraph self)
  = seq 0 (length (Metagraph.neurons (metagraph self))) ->
  select_candidates self (Metagraph.axons (metagraph self)) = Ok (cands, bl, nq) ->
  exists mask,
    blacklisted_uids self = Ok bl /\
    cands = axons_where true (Metagraph.axons (metagraph self)) mask /\
    uids_of (metagraph self)
      (axons_where false (Metagraph.axons (metagraph self)) mask) = Ok nq /\
    length mask = length (Metagraph.neurons (metagraph self)) /\
    forall i n, Metagraph.neurons (metagraph self) !! i = Some n ->
      mask !! i = Some (bool_decide (i ∉ bl)
                        && bool_decide (ip (axon_info n) ≠ "0.0.0.0")
                        && Qge_bool (stake n) 0).
Proof.
  intros Huids Hsel. unfold select_candidates in Hsel.
  rewrite (invalid_uids_ok _ Huids) in Hsel. simpl in Hsel.
  destruct (blacklisted_uids self) as [bl'|]; simpl in Hsel; [|done].
  destruct (uids_of _ _) as [nq'|] eqn:Hnq; simpl in Hsel; [|done].
  injection Hsel as <- <- <-.
  eexists. split; [done|]. split; [reflexivity|]. split; [exact Hnq|].
  split; [apply keep_mask_length|].
  intros i n Hn. by apply keep_mask_lookup.
Qed.

Lemma comprehension_elem_of {A B} (f : A -> result B) (l : list A) (ys : list B)
    (x : A) :
  comprehension f l = Ok ys -> x ∈ l -> exists y, y ∈ ys /\ f x = Ok y.
Proof.
  intros Hrun Hx. apply list_elem_of_lookup in Hx as [i Hi].
  destruct (comprehension_lookup f l ys i x Hrun Hi) as (y & Hy & Hfx).
  exists y. split; [by eapply list_elem_of_lookup_2|done].
Qed.

Lemma comprehension_elem_of_inv {A B} (f : A -> result B) (l : list A)
    (ys : list B) (y : B) :
  comprehension f l = Ok ys -> y ∈ ys -> exists x, x ∈ l /\ f x = Ok y.
Proof.
  revert ys. induction l as [|x l IH]; intros ys; simpl.
  - intros [= <-] Hy. by apply elem_of_nil in Hy.
  - destruct (f x) as [y'|] eqn:Hx; simpl; [|done].
    destruct (comprehension f l) as [ys'|] eqn:Hl; simpl; [|done].
    intros [= <-] Hy. apply elem_of_cons in Hy as [->|Hy].
    + exists x. split; [left|done].
    + destruct (IH ys' eq_refl Hy) as (x' & Hx' & Hfx'). exists x'.
      split; [by right|done].
Qed.

(** X14. The filter keeps everyone who passes.  Over a well-formed registry
    and its own axons, a neuron with stake >= 0, an IP other than "0.0.0.0"
    and a hotkey outside the blacklist is among the axons left to query; and
    the uid of every neuron that is not among them comes with a reason: a
    negative stake, the IP "0.0.0.0", or a blacklisted uid. *)
Theorem select_candidates_complete (self : Validator) (cands : list AxonInfo)
    (blacklisted not_queried : list nat) :
  registry_ok (metagraph self) ->
  select_candidates self (Metagraph.axons (metagraph self))
  = Ok (cands, blacklisted, not_queried) ->
  (forall i n,
     Metagraph.neurons (metagraph self) !! i = Some n ->
     0 <= stake n -> ip (axon_info n) <> "0.0.0.0" ->
     (forall blacklist, blacklisted_miner_hotkeys self = Some blacklist ->
                        hotkey (axon_info n) ∉ blacklist) ->
     axon_info n ∈ cands) /\
  (forall i, i ∈ not_queried ->
     exists n, Metagraph.neurons (metagraph self) !! i = Some n /\
       (stake n < 0 \/ ip (axon_info n) = "0.0.0.0" \/ i ∈ blacklisted)).
Proof.
  intros [Huids Hnd] Hsel.
  destruct (select_candidates_inv self cands blacklisted not_queried Huids Hsel)
    as (mask & Hbl & -> & Hnq & Hlen & Hmask).
  destruct (blacklisted_uids_spec self) as (bl' & Hbl' & Hblspec).
  assert (bl' = blacklisted) by congruence. subst bl'.
  assert (Hhot : forall i n, Metagraph.neurons (metagraph self) !! i = Some n ->
            Metagraph.hotkeys (metagraph self) !! i = Some (hotkey (axon_info n))).
  { intros i n Hn. unfold Metagraph.hotkeys, Metagraph.axons.
    by rewrite !list_lookup_fmap, Hn. }
  split.
  - intros i n Hn Hstake Hip Hout. apply elem_of_axons_where. exists i. split.
    { unfold Metagraph.axons. by rewrite list_lookup_fmap, Hn. }
    rewrite (Hmask i n Hn). f_equal.
    rewrite (bool_decide_eq_true_2 (ip (axon_info n) ≠ "0.0.0.0")) by done.
    rewrite (proj2 (Qge_bool_iff (stake n) 0) Hstake).
    rewrite bool_decide_eq_true_2; [done|].
    intros Hi. apply Hblspec in Hi as (blacklist & h & Hsome & Hh & Hidx).
    apply index_Ok_lookup in Hidx. rewrite (Hhot i n Hn) in Hidx.
    injection Hidx as <-. by apply (Hout blacklist).
  - intros i Hi.
    destruct (comprehension_elem_of_inv _ _ _ _ Hnq Hi) as (a & Ha & Hidx).
    apply elem_of_axons_where in Ha as (j & Haj & Hmj).
    unfold Metagraph.axons in Haj. rewrite list_lookup_fmap in Haj.
    destruct (Metagraph.neurons (metagraph self) !! j) as [n|] eqn:Hn; [|done].
    injection Haj as <-.
    assert (i = j).
    { apply index_Ok_lookup in Hidx. eapply NoDup_lookup; eauto. }
    subst j. exists n. split; [done|].
    rewrite (Hmask i n Hn) in Hmj. injection Hmj as Hmj.
    apply andb_false_iff in Hmj as [Hmj|Hst].
    + apply andb_false_iff in Hmj as [Hb|Hip].
      * right. right. apply bool_decide_eq_false in Hb.
        by apply dec_stable in Hb.
      * right. left. apply bool_decide_eq_false in Hip.
        by apply dec_stable in Hip.
    + left. by apply Qge_bool_false in Hst.
Qed.

(** In the example alice passes and is kept; dave, whose uid is 3, is not
    queried, being blacklisted. *)
Lemma select_candidates_complete_example :
  let cands := [ {| ip := "10.0.0.1"; hotkey := "alice" |};
                 {| ip := "10.0.0.5"; hotkey := "erin" |};
                 {| ip := "10.0.0.6"; hotkey := "frank" |} ] in
  registry_ok (metagraph example_validator) /\
  select_candidates example_validator (Metagraph.axons (metagraph example_validator))
  = Ok (cands, [3]%nat, [1; 2; 3]%nat) /\
  {| ip := "10.0.0.1"; hotkey := "alice" |} ∈ cands /\
  exists n, example_registry !! 3%nat = Some n /\
    (stake n < 0 \/ ip (axon_info n) = "0.0.0.0" \/ 3%nat ∈ [3]%nat).
Proof.
  intros cands.
  assert (Hsel : select_candidates example_validator
                   (Metagraph.axons (metagraph example_validator))
                 = Ok (cands, [3]%nat, [1; 2; 3]%nat)) by (by vm_compute).
  split; [exact example_registry_ok|]. split; [exact Hsel|].
  destruct (select_candidates_complete example_validator cands _ _
              example_registry_ok Hsel) as [Hkeep Hreason].
  split.
  - apply (Hkeep 0%nat (neuron 0 100 "10.0.0.1" "alice") eq_refl).
    + simpl. lra.
    + discriminate.
    + intros blacklist [= <-] Hin.
      apply list_elem_of_singleton in Hin. discriminate.
  - apply (Hreason 3%nat). do 2 right. left.
Defined.

Lemma length_filter_flag {A} (ps : list (A * bool)) :
  (length (filter (fun p : A * bool => p.2 = true) ps)
   + length (filter (fun p : A * bool => p.2 = false) ps))%nat = length ps.
Proof.
  induction ps as [|[a [|]] ps IH]; [done| |].
  - rewrite filter_cons_True, filter_cons_False by done. simpl. lia.
  - rewrite filter_cons_False, filter_cons_True by done. simpl. lia.
Qed.

(** X15. The bookkeeping of a round adds up.  Over a well-formed registry
    and its own axons, every blacklisted uid is among the uids not to query,
    and the axons left to query and the uids not to query number as many as
    the registry has neurons. *)
Theorem select_candidates_partition (self : Validator) (cands : list AxonInfo)
    (blacklisted not_queried : list nat) :
  registry_ok (metagraph self) ->
  select_candidates self (Metagraph.axons (metagraph self))
  = Ok (cands, blacklisted, not_queried) ->
  (forall i, i ∈ blacklisted -> i ∈ not_queried) /\
  (length cands + length not_queried)%nat
  = length (Metagraph.neurons (metagraph self)).
Proof.
  intros [Huids Hnd] Hsel.
  destruct (select_candidates_inv self cands blacklisted not_queried Huids Hsel)
    as (mask & Hbl & -> & Hnq & Hlen & Hmask).
  destruct (blacklisted_uids_spec self) as (bl' & Hbl' & Hblspec).
  assert (bl' = blacklisted) by congruence. subst bl'.
  split.
  - intros i Hi. pose proof Hi as Hi'.
    apply Hblspec in Hi' as (blacklist & h & Hsome & Hh & Hidx).
    pose proof (index_Ok_lookup _ _ _ Hidx) as Hlook.
    unfold Metagraph.hotkeys, Metagraph.axons in Hlook.
    rewrite !list_lookup_fmap in Hlook.
    destruct (Metagraph.neurons (metagraph self) !! i) as [n|] eqn:Hn; [|done].
    injection Hlook as <-.
    destruct (comprehension_elem_of _ _ _ (axon_info n) Hnq) as (j & Hj & Hidx').
    { apply elem_of_axons_where. exists i. split.
      - unfold Metagraph.axons. by rewrite list_lookup_fmap, Hn.
      - rewrite (Hmask i n Hn). f_equal.
        by rewrite (bool_decide_eq_false_2 (i ∉ blacklisted)) by tauto. }
    assert (j = i) by congruence. by subst j.
  - unfold uids_of in Hnq. rewrite (comprehension_length _ _ _ Hnq).
    unfold axons_where. rewrite !length_fmap, length_filter_flag.
    rewrite length_zip_with. unfold Metagraph.axons. rewrite length_fmap. lia.
Qed.

(** In the example: uid 3 on both lists, and 3 + 3 = 6. *)
Lemma select_candidates_partition_example :
  let cands := [ {| ip := "10.0.0.1"; hotkey := "alice" |};
                 {| ip := "10.0.0.5"; hotkey := "erin" |};
                 {| ip := "10.0.0.6"; hotkey := "frank" |} ] in
  registry_ok (metagraph example_validator) /\
  select_candidates example_validator (Metagraph.axons (metagraph example_validator))
  = Ok (cands, [3]%nat, [1; 2; 3]%nat) /\
  (forall i, i ∈ [3]%nat -> i ∈ [1; 2; 3]%nat) /\
  (length cands + length [1; 2; 3]%nat)%nat = length example_registry.
Proof.
  intros cands.
  assert (Hsel : select_candidates example_validator
                   (Metagraph.axons (metagraph example_validator))
                 = Ok (cands, [3]%nat, [1; 2; 3]%nat)) by (by vm_compute).
  split; [exact example_registry_ok|]. split; [exact Hsel|].
  exact (select_candidates_partition example_validator cands _ _
           example_registry_ok Hsel).
Defined.

(** X16. A refreshed blacklist holds in the next round.  Over a well-formed
    registry and its own axons, after [check_blacklisted_miner_hotkeys] no
    axon that [get_uids_to_query] returns has a hotkey that an entry of the
    local or of the remote list carries. *)
Theorem refreshed_blacklist_is_respected (self self' : Validator)
    (local_miner_blacklist remote_miner_blacklist : list (gmap string string))
    (r : QueryTargets) :
  registry_ok (metagraph self) ->
  get_uids_to_query
    (check_blacklisted_miner_hotkeys self local_miner_blacklist remote_miner_blacklist)
    (Metagraph.axons (metagraph self)) = (Ok r, self') ->
  forall a item,
    a ∈ queried r ->
    item ∈ local_miner_blacklist \/ item ∈ remote_miner_blacklist ->
    item !! "hotkey" <> Some (hotkey a).
Proof.
  intros Hok Hrun a item Ha Hitem Hhot.
  set (refreshed := check_blacklisted_miner_hotkeys self local_miner_blacklist
                      remote_miner_blacklist) in *.
  destruct (get_uids_to_query_queried _ _ _ _ Hrun)
    as (cands & bl & nq & Hsel & Hsub).
  destruct (select_candidates_keep refreshed cands bl nq Hok Hsel a (Hsub a Ha))
    as (n & _ & _ & _ & _ & Hout).
  eapply Hout; [reflexivity|].
  apply elem_of_hotkeys_of. exists item. split; [|done].
  by apply elem_of_app.
Qed.

(** The example validator after a refresh that lists dave locally and erin
    remotely. *)
Lemma refreshed_blacklist_is_respected_example :
  let local : list (gmap string string) :=
    [{[ "hotkey" := "dave"; "reason" := "spam" ]}] in
  let remote : list (gmap string string) :=
    [{[ "hotkey" := "erin"; "reason" := "copies" ]}] in
  registry_ok (metagraph example_validator) /\
  exists r self',
    get_uids_to_query (check_blacklisted_miner_hotkeys example_validator local remote)
      example_axons = (Ok r, self') /\
    queried r = [ {| ip := "10.0.0.1"; hotkey := "alice" |};
                  {| ip := "10.0.0.6"; hotkey := "frank" |} ] /\
    forall a item, a ∈ queried r -> item ∈ local \/ item ∈ remote ->
                   item !! "hotkey" <> Some (hotkey a).
Proof.
  intros local remote. split; [exact example_registry_ok|].
  eexists _, _. split; [by vm_compute|]. split; [reflexivity|].
  intros a item Ha Hitem.
  eapply (refreshed_blacklist_is_respected example_validator _ local remote);
    [exact example_registry_ok|by vm_compute|exact Ha|exact Hitem].
Defined.

(** ** The miner's door *)

Lemma index_lt {A} `{EqDecision A} (x : A) (l : list A) (i : nat) :
  index x l = Ok i -> (i < length l)%nat.
Proof. intros Hi. apply index_Ok_lookup in Hi. by eapply lookup_lt_Some. Qed.

Lemma miner_blacklist_accepts_inv (self : Miner.t) (hotkey : option string)
    (message : Miner.Message) :
  Miner.blacklist self hotkey = Ok (false, message) ->
  Miner.check_whitelist hotkey = true \/
  exists h uid stake,
    hotkey = Some h /\
    index h (Metagraph.hotkeys (Miner.metagraph self)) = Ok uid /\
    Miner.validator_permit self !! uid = Some true /\
    Metagraph.S (Miner.metagraph self) !! uid = Some stake /\
    Miner.validator_min_stake self <= stake.
Proof.
  unfold Miner.blacklist.
  destruct (Miner.check_whitelist hotkey); [by left|].
  intros Hrun. right.
  destruct hotkey as [h|]; [|done].
  destruct (decide (h ∉ _)); [done|].
  destruct (index h _) as [uid|] eqn:Huid; simpl in Hrun; [|done].
  unfold getitem in Hrun.
  destruct (Miner.validator_permit self !! uid) as [[|]|] eqn:Hp;
    simpl in Hrun; try done.
  destruct (Metagraph.S (Miner.metagraph self) !! uid) as [s|] eqn:Hs;
    simpl in Hrun; [|done].
  destruct (Qlt_bool s (Miner.validator_min_stake self)) eqn:Hlow; [done|].
  apply Qlt_bool_false in Hlow. by exists h, uid, s.
Qed.

(** X17. Whom a miner lets in.  [blacklist] accepts a request exactly when
    the hotkey is the whitelisted one, or is registered and its first uid
    has a validator permit and a stake of at least [validator_min_stake];
    a hotkey that is no string is rejected.  With one permit per neuron the
    method does not raise. *)
Theorem miner_blacklist_accepts (self : Miner.t) (hotkey : option string) :
  (length (Miner.validator_permit self)
   = length (Metagraph.neurons (Miner.metagraph self)) ->
   exists verdict message, Miner.blacklist self hotkey = Ok (verdict, message)) /\
  ((exists message, Miner.blacklist self hotkey = Ok (false, message)) <->
   Miner.check_whitelist hotkey = true \/
   exists h uid stake,
     hotkey = Some h /\
     index h (Metagraph.hotkeys (Miner.metagraph self)) = Ok uid /\
     Miner.validator_permit self !! uid = Some true /\
     Metagraph.S (Miner.metagraph self) !! uid = Some stake /\
     Miner.validator_min_stake self <= stake).
Proof.
  unfold Miner.blacklist. split.
  - intros Hpermits.
    destruct (Miner.check_whitelist hotkey); [by eexists _, _|].
    destruct hotkey as [h|]; [|by eexists _, _].
    destruct (decide (h ∉ _)) as [|Hin]; [by eexists _, _|].
    apply dec_stable in Hin.
    destruct (index_elem_of _ _ Hin) as [uid Huid]. rewrite Huid. simpl.
    pose proof (index_lt _ _ _ Huid) as Hlt.
    unfold Metagraph.hotkeys, Metagraph.axons in Hlt. rewrite !length_fmap in Hlt.
    unfold getitem.
    destruct (lookup_lt_is_Some_2 (Miner.validator_permit self) uid) as [p ->];
      [lia|]. simpl.
    destruct p; simpl; [|by eexists _, _].
    destruct (lookup_lt_is_Some_2 (Metagraph.S (Miner.metagraph self)) uid)
      as [s ->].
    { unfold Metagraph.S, Metagraph.total_stake. rewrite length_fmap. lia. }
    simpl. destruct (Qlt_bool _ _); by eexists _, _.
  - split.
    { intros [message Hrun]. fold (Miner.blacklist self hotkey) in Hrun.
      by eapply miner_blacklist_accepts_inv. }
    destruct (Miner.check_whitelist hotkey).
    { intros _. by eexists. }
    intros [[=]|(h & uid & s & -> & Huid & Hp & Hs & Hlow)].
    {
      destruct (decide (h ∉ _)) as [Hout|_].
      { exfalso. apply Hout. apply index_Ok_lookup in Huid.
        by eapply list_elem_of_lookup_2. }
      rewrite Huid. simpl. unfold getitem. rewrite Hp. simpl. rewrite Hs. simpl.
      apply Qlt_bool_false in Hlow. rewrite Hlow. by eexists. }
Qed.

(** A miner in the example registry that asks for a stake of 5: alice (100)
    is let in, frank (2) is not. *)
Lemma miner_blacklist_accepts_example :
  let self := {| Miner.metagraph := metagraph example_validator;
                 Miner.validator_permit := [true; true; true; true; true; true];
                 Miner.validator_min_stake := 5;
                 Miner.wallet_hotkey := "erin";
                 Miner.hotkey_blacklisted := false |} in
  length (Miner.validator_permit self)
  = length (Metagraph.neurons (Miner.metagraph self)) /\
  (exists message, Miner.blacklist self (Some "alice") = Ok (false, message)) /\
  Miner.blacklist self (Some "frank")
  = Ok (true, Miner.InsufficientStake (Some "frank") 2).
Proof.
  intros self. split; [reflexivity|]. split; [|by vm_compute].
  apply (proj2 (miner_blacklist_accepts self (Some "alice"))). right.
  exists "alice", 0%nat, 100. repeat split; try reflexivity. simpl. lra.
Defined.

(** X18. Whoever passes [blacklist] has a priority.  If [blacklist] accepts
    a request, [priority] returns: 10000000 for the whitelisted hotkey, and
    otherwise the stake that the metagraph holds at the hotkey's uid, which
    is at least [validator_min_stake].  For a hotkey that is neither
    whitelisted nor registered, [priority] raises [ValueError]. *)
Theorem miner_priority_of_accepted (self : Miner.t) (hotkey : option string) :
  (forall message,
     Miner.blacklist self hotkey = Ok (false, message) ->
     exists p,
       Miner.priority self hotkey = Ok p /\
       (Miner.check_whitelist hotkey = true -> p = 10000000) /\
       (Miner.check_whitelist hotkey = false ->
        exists h uid,
          hotkey = Some h /\
          index h (Metagraph.hotkeys (Miner.metagraph self)) = Ok uid /\
          Metagraph.S (Miner.metagraph self) !! uid = Some p /\
          Miner.validator_min_stake self <= p)) /\
  (Miner.check_whitelist hotkey = false ->
   (forall h, hotkey = Some h -> h ∉ Metagraph.hotkeys (Miner.metagraph self)) ->
   Miner.priority self hotkey = Raise ValueError).
Proof.
  split.
  - intros message Hrun.
    destruct (miner_blacklist_accepts_inv self hotkey message Hrun)
      as [Hwhite|(h & uid & s & -> & Huid & Hp & Hs & Hlow)].
    + unfold Miner.priority. rewrite Hwhite. exists 10000000.
      split; [done|]. split; [done|]. intros [=].
    + unfold Miner.priority.
      destruct (Miner.check_whitelist (Some h)) eqn:Hwhite.
      * exists 10000000. split; [done|]. split; [done|]. intros [=].
      * rewrite Huid. simpl. unfold getitem. rewrite Hs. exists s.
        split; [done|]. split; [intros [=]|]. intros _. by exists h, uid.
  - intros Hwhite Hout. unfold Miner.priority. rewrite Hwhite.
    destruct hotkey as [h|]; [|done].
    destruct (index h _) as [uid|e] eqn:Huid; simpl.
    + exfalso. apply (Hout h eq_refl). apply index_Ok_lookup in Huid.
      by eapply list_elem_of_lookup_2.
    + by apply index_Raise in Huid as [-> _].
Qed.

(** Alice is let in with her stake of 100 as priority; a stranger has
    none. *)
Lemma miner_priority_of_accepted_example :
  let self := {| Miner.metagraph := metagraph example_validator;
                 Miner.validator_permit := [true; true; true; true; true; true];
                 Miner.validator_min_stake := 5;
                 Miner.wallet_hotkey := "erin";
                 Miner.hotkey_blacklisted := false |} in
  Miner.blacklist self (Some "alice") = Ok (false, Miner.Accepted (Some "alice")) /\
  (exists p, Miner.priority self (Some "alice") = Ok p /\ p = 100 /\
             Metagraph.S (Miner.metagraph self) !! 0%nat = Some p /\ 5 <= p) /\
  Miner.priority self (Some "mallory") = Raise ValueError.
Proof.
  intros self.
  assert (Hrun : Miner.blacklist self (Some "alice")
                 = Ok (false, Miner.Accepted (Some "alice"))) by (by vm_compute).
  split; [exact Hrun|].
  destruct (miner_priority_of_accepted self (Some "alice")) as [Haccepted _].
  destruct (miner_priority_of_accepted self (Some "mallory")) as [_ Hstranger].
  split.
  - destruct (Haccepted _ Hrun) as (p & Hp & _ & Hstake).
    destruct (Hstake eq_refl) as (h & uid & [= <-] & Huid & Hs & Hmin).
    assert (Hfirst : uid = 0%nat).
    { vm_compute in Huid. by injection Huid as <-. }
    subst uid. exists p. split; [exact Hp|]. split; [|by split].
    vm_compute in Hs. by injection Hs as <-.
  - apply Hstranger; [reflexivity|].
    intros h [= <-]. compute_done.
Defined.

(** ** The miner's own blacklisting *)

(** An entry the loop of [check_remote_blacklist] gets past: it has a
    hotkey, and a reason if the hotkey is the miner's own. *)
Lemma scan_blacklist_Ok (own : string) (miner_blacklist : list (gmap string string))
    (is_blacklisted found : bool) :
  Miner.scan_blacklist own miner_blacklist is_blacklisted = Ok found <->
  (forall entry, entry ∈ miner_blacklist ->
     exists h, entry !! "hotkey" = Some h /\
               (h = own -> is_Some (entry !! "reason"))) /\
  found = is_blacklisted
          || bool_decide (own ∈ omap (fun entry : gmap string string =>
                                        entry !! "hotkey") miner_blacklist).
Proof.
  set (hotkey_of := fun entry : gmap string string => entry !! "hotkey").
  revert is_blacklisted.
  induction miner_blacklist as [|entry rest IH]; intros is_blacklisted.
  { change (omap hotkey_of []) with ([] : list string).
    rewrite bool_decide_eq_false_2 by apply not_elem_of_nil.
    rewrite orb_false_r. simpl. split.
    - intros [= <-]. split; [|done].
      intros entry Hin. by apply elem_of_nil in Hin.
    - by intros [_ ->]. }
  cbn [Miner.scan_blacklist].
  destruct (entry !! "hotkey") as [h|] eqn:Hh.
  2:{ split; [done|]. intros [Hwf _].
      destruct (Hwf entry) as (h & Hh' & _); [left|]. congruence. }
  assert (Homap : omap hotkey_of (entry :: rest) = h :: omap hotkey_of rest).
  { cbn [omap list_omap]. unfold hotkey_of at 1. by rewrite Hh. }
  rewrite Homap.
  assert (Hdecide : forall b : bool,
            b || bool_decide (own ∈ h :: omap hotkey_of rest)
            = (if decide (h = own) then true else b)
              || bool_decide (own ∈ omap hotkey_of rest)).
  { intros b. destruct (decide (h = own)) as [->|Hne].
    - rewrite bool_decide_eq_true_2 by left. by rewrite orb_true_r.
    - f_equal. apply bool_decide_ext. rewrite elem_of_cons.
      split; [intros [Heq|Hin]; [congruence|done]|by right]. }
  rewrite Hdecide.
  destruct (decide (h = own)) as [->|Hne].
  - destruct (entry !! "reason") as [reason|] eqn:Hr.
    + rewrite IH. split.
      * intros [Hwf ->]. split; [|done]. intros e He.
        apply elem_of_cons in He as [->|He]; [|by apply Hwf].
        exists own. by rewrite Hr.
      * intros [Hwf ->]. split; [|done]. intros e He. apply Hwf. by right.
    + split; [done|]. intros [Hwf _].
      destruct (Hwf entry) as (h & Hh' & Hreason); [left|].
      assert (h = own) by congruence. subst h.
      destruct (Hreason eq_refl) as [reason Hreason']. congruence.
  - rewrite IH. split.
    + intros [Hwf ->]. split; [|done]. intros e He.
      apply elem_of_cons in He as [->|He]; [|by apply Hwf].
      exists h. split; [done|]. by intros.
    + intros [Hwf ->]. split; [|done]. intros e He. apply Hwf. by right.
Qed.

(** X19. When a miner learns that it is blacklisted.
    [check_remote_blacklist] sets [hotkey_blacklisted] only after a response
    with status 200 whose body is a list that passes
    [validate_miner_blacklist], in which every entry has a hotkey and every
    entry with the miner's hotkey a reason: the flag then says whether the
    miner's hotkey is listed.  In every other case (the request failed,
    another status, a body that is no JSON, a list that is rejected, an entry
    without hotkey, an own entry without reason) the miner is left as it was.
    Nothing but the flag ever changes. *)
Theorem check_remote_blacklist_flag
    (validate_miner_blacklist : list (gmap string string) -> bool)
    (self : Miner.t) (fetched : Miner.Fetched) :
  let self' := Miner.check_remote_blacklist validate_miner_blacklist self fetched in
  let well_formed (miner_blacklist : list (gmap string string)) :=
    forall entry, entry ∈ miner_blacklist ->
      exists h, entry !! "hotkey" = Some h /\
                (h = Miner.wallet_hotkey self -> is_Some (entry !! "reason")) in
  (forall miner_blacklist,
     fetched = Miner.Response 200 (Some miner_blacklist) ->
     validate_miner_blacklist miner_blacklist = true ->
     well_formed miner_blacklist ->
     self' = Miner.set_hotkey_blacklisted self
               (bool_decide (Miner.wallet_hotkey self
                             ∈ omap (fun entry : gmap string string =>
                                       entry !! "hotkey") miner_blacklist))) /\
  (self' <> self ->
   exists miner_blacklist,
     fetched = Miner.Response 200 (Some miner_blacklist) /\
     validate_miner_blacklist miner_blacklist = true /\
     well_formed miner_blacklist) /\
  Miner.set_hotkey_blacklisted self (Miner.hotkey_blacklisted self') = self'.
Proof.
  intros self' well_formed. unfold self', Miner.check_remote_blacklist.
  assert (Hself : Miner.set_hotkey_blacklisted self (Miner.hotkey_blacklisted self)
                  = self) by (by destruct self).
  split; [|split].
  - intros l -> Hvalid Hwf. simpl. rewrite Hvalid.
    destruct (Miner.scan_blacklist (Miner.wallet_hotkey self) l false)
      as [found|e] eqn:Hscan.
    + by apply scan_blacklist_Ok in Hscan as [_ ->].
    + assert (Hok : Miner.scan_blacklist (Miner.wallet_hotkey self) l false
                    = Ok (false || bool_decide (Miner.wallet_hotkey self
                            ∈ omap (fun entry : gmap string string =>
                                      entry !! "hotkey") l)))
        by (by apply scan_blacklist_Ok).
      congruence.
  - destruct fetched as [|status json]; [done|].
    destruct (Z.eqb_spec status 200) as [->|]; [|done].
    destruct json as [l|]; [|done].
    destruct (validate_miner_blacklist l) eqn:Hvalid; [|done].
    destruct (Miner.scan_blacklist (Miner.wallet_hotkey self) l false)
      as [found|e] eqn:Hscan; [|done].
    intros _. exists l. split; [done|]. split; [done|].
    by apply scan_blacklist_Ok in Hscan as [Hwf _].
  - destruct fetched as [|status json]; [done|].
    destruct (status =? 200)%Z; [|done].
    destruct json as [l|]; [|done].
    destruct (validate_miner_blacklist l); [|done].
    by destruct (Miner.scan_blacklist _ _ _).
Qed.

(** Erin finds herself on the list; had her entry no reason, she would not
    know. *)
Lemma check_remote_blacklist_flag_example :
  let self := {| Miner.metagraph := metagraph example_validator;
                 Miner.validator_permit := [];
                 Miner.validator_min_stake := 5;
                 Miner.wallet_hotkey := "erin";
                 Miner.hotkey_blacklisted := false |} in
  let listed : list (gmap string string) :=
    [{[ "hotkey" := "dave"; "reason" := "spam" ]};
     {[ "hotkey" := "erin"; "reason" := "copies" ]}] in
  let unexplained : list (gmap string string) := [{[ "hotkey" := "erin" ]}] in
  Miner.hotkey_blacklisted
    (Miner.check_remote_blacklist (fun _ => true) self
       (Miner.Response 200 (Some listed))) = true /\
  Miner.check_remote_blacklist (fun _ => true) self
    (Miner.Response 200 (Some unexplained)) = self.
Proof.
  intros self listed unexplained. split; [|by vm_compute].
  rewrite (proj1 (check_remote_blacklist_flag (fun _ => true) self
                    (Miner.Response 200 (Some listed))) listed eq_refl eq_refl).
  - by vm_compute.
  - intros entry Hin.
    apply elem_of_cons in Hin as [->|Hin];
      [|apply list_elem_of_singleton in Hin as ->].
    + exists "dave". split; [by vm_compute|]. intros [=].
    + exists "erin". split; [by vm_compute|]. intros _. eexists. by vm_compute.
Defined.

(** ** The engine data of a response *)

Lemma head_engines_named (name : string) (engines : list EngineOutput)
    (d : EngineOutput) :
  head (engines_named name engines) = Some d ->
  engine_name d = name /\ d ∈ engines.
Proof.
  intros Hhead. assert (Hin : d ∈ engines_named name engines).
  { destruct (engines_named name engines); [done|].
    injection Hhead as ->. left. }
  by apply list_elem_of_filter in Hin.
Qed.

Lemma engine_data_heads (engines : list EngineOutput) :
  engine_data engines
  = option_list (head (engines_named "engine:text_classification" engines))
    ++ option_list (head (engines_named "engine:vector_search" engines))
    ++ option_list (head (engines_named "engine:yara" engines)).
Proof.
  unfold engine_data.
  destruct (engines_named "engine:text_classification" engines);
    destruct (engines_named "engine:vector_search" engines);
    destruct (engines_named "engine:yara" engines); reflexivity.
Qed.

(** X20. Of the engines of a response, [process_responses] keeps at most
    three entries: for each of text classification, vector search and YARA
    the first entry of that name, if there is one.  Later entries of the same
    name and entries of any other name are dropped, and no engine is kept
    twice. *)
Theorem engine_data_first_of_each (engines : list EngineOutput) :
  (length (engine_data engines) <= 3)%nat /\
  (forall d, d ∈ engine_data engines <->
     exists name,
       name ∈ ["engine:text_classification"; "engine:vector_search"; "engine:yara"]
       /\ head (engines_named name engines) = Some d) /\
  NoDup (engine_name <$> engine_data engines).
Proof.
  rewrite engine_data_heads.
  destruct (head (engines_named "engine:text_classification" engines))
    as [tc|] eqn:Htc;
  destruct (head (engines_named "engine:vector_search" engines)) as [vs|] eqn:Hvs;
  destruct (head (engines_named "engine:yara" engines)) as [ya|] eqn:Hya;
  repeat match goal with
         | H : head (engines_named _ engines) = Some _ |- _ =>
             pose proof (proj1 (head_engines_named _ _ _ H));
             revert H
         end; intros; simpl;
  (split; [lia|]); (split; [|
     repeat match goal with H : engine_name _ = _ |- _ => rewrite H; clear H end;
     compute_done]);
  (intros d; split;
   [ rewrite ?elem_of_cons, elem_of_nil; intros Hd;
     repeat destruct Hd as [->|Hd]; try done;
     first [ exists "engine:text_classification"; split; [compute_done|done]
           | exists "engine:vector_search"; split; [compute_done|done]
           | exists "engine:yara"; split; [compute_done|done] ]
   | intros (name & Hname & Hhead);
     rewrite !elem_of_cons, elem_of_nil in Hname;
     destruct Hname as [->|[->|[->|[]]]];
     rewrite ?elem_of_cons; first [congruence | naive_solver congruence] ]).
Qed.

(** ** Sizes *)

Lemma length_slice_le {A} (l : list A) (start stop : Z) :
  (Z.of_nat (length (slice l start stop))
   <= Z.max 0 (slice_bound (Z.of_nat (length l)) stop
               - slice_bound (Z.of_nat (length l)) start))%Z.
Proof. unfold slice. rewrite length_take. lia. Qed.

(** X21. A round never asks more miners than the page size.  With
    [max_targets] between 0 and 255, whatever the cursor and whatever axons
    are passed, a list that [get_uids_to_query] returns has at most
    [max_targets] axons. *)
Theorem get_uids_to_query_at_most_max_targets (self self' : Validator)
    (all_axons : list AxonInfo) (r : QueryTargets) :
  (0 <= max_targets self < 256)%Z ->
  get_uids_to_query self all_axons = (Ok r, self') ->
  (Z.of_nat (length (queried r)) <= max_targets self)%Z.
Proof.
  intros Hmax. unfold get_uids_to_query, query_targets.
  destruct (select_candidates self all_axons) as [[[cands bl] nq]|]; [|done].
  destruct (Z.ltb_spec (max_targets self) 256); [|lia].
  destruct (Z.eqb_spec (start_idx self) (end_idx self cands)).
  { intros [= <- _]. simpl. lia. }
  rewrite !Z.geb_leb.
  destruct (Z.leb_spec (Z.of_nat (length cands)) (start_idx self)); [done|].
  assert (Hnext : (max_targets self * (target_group self + 1)
                   = start_idx self + max_targets self)%Z)
    by (unfold start_idx; lia).
  unfold end_idx. rewrite Hnext.
  destruct (Z.leb_spec (Z.of_nat (length cands))
              (Z.min (Z.of_nat (length cands)) (start_idx self + max_targets self)));
    destruct (uids_of _ _); try done; intros [= <- _]; simpl;
    match goal with |- context [slice ?l ?s ?e] =>
      pose proof (length_slice_le l s e) as Hlen end;
    unfold slice_bound in Hlen;
    repeat match type of Hlen with context [(?a <? ?b)%Z] =>
      destruct (Z.ltb_spec a b) end; lia.
Qed.

(** The first page of the example has two axons, the page size. *)
Lemma get_uids_to_query_at_most_max_targets_example :
  (0 <= max_targets example_validator < 256)%Z /\
  exists r self',
    get_uids_to_query example_validator example_axons = (Ok r, self') /\
    length (queried r) = 2%nat /\
    (Z.of_nat (length (queried r)) <= max_targets example_validator)%Z.
Proof.
  assert (Hmax : (0 <= max_targets example_validator < 256)%Z) by (simpl; lia).
  split; [exact Hmax|].
  assert (Hrun : get_uids_to_query example_validator example_axons
    = (Ok (Tuple4 [ {| ip := "10.0.0.1"; hotkey := "alice" |};
                    {| ip := "10.0.0.5"; hotkey := "erin" |} ]
             [0; 4]%nat [3]%nat [1; 2; 3]%nat),
       set_target_group example_validator 1)) by (by vm_compute).
  eexists _, _. split; [exact Hrun|]. split; [reflexivity|].
  exact (get_uids_to_query_at_most_max_targets example_validator _ _ _ Hmax Hrun).
Defined.

(** X22. [check_hotkeys] brings the scores to the size of the registry.
    If there is a score per registered hotkey, or a score per hotkey of a
    non-empty stored snapshot, then [check_hotkeys] returns, and afterwards
    there is a score per registered hotkey and the snapshot is the list of
    the registered hotkeys. *)
Theorem check_hotkeys_sized (self : Validator) :
  length (scores self) = length (Metagraph.hotkeys (metagraph self)) \/
  (exists old_hotkeys,
     hotkeys self = Some old_hotkeys /\ old_hotkeys <> [] /\
     length (scores self) = length old_hotkeys) ->
  exists self',
    check_hotkeys self = (Ok (), self') /\
    length (scores self') = length (Metagraph.hotkeys (metagraph self)) /\
    hotkeys self' = Some (Metagraph.hotkeys (metagraph self)) /\
    metagraph self' = metagraph self.
Proof.
  intros Hsized. unfold check_hotkeys.
  set (current := Metagraph.hotkeys (metagraph self)) in *.
  destruct (hotkeys self) as [[|h old]|] eqn:Hsnap.
  - destruct Hsized as [Hlen|(o & [= <-] & Hne & _)]; [|done].
    eexists. split; [reflexivity|]. by repeat split.
  - destruct (decide (length (h :: old) = length current)) as [Hsame|Hdiff].
    + assert (Hlen : length (scores self) = length (h :: old)).
      { destruct Hsized as [Hlen|(o & [= <-] & _ & Hlen)]; [congruence|done]. }
      destruct (reset_replaced_spec (h :: old) (enumerate current) (scores self))
        as (scores' & Hrun & Hlen' & _).
      { intros i k Hik. apply elem_of_enumerate, lookup_lt_Some in Hik.
        split; [lia|]. apply lookup_lt_is_Some. lia. }
      rewrite Hrun. eexists. split; [reflexivity|]. simpl.
      split; [congruence|]. by split.
    + eexists. split; [reflexivity|]. simpl.
      rewrite length_replicate, length_metagraph_S. by repeat split.
  - destruct Hsized as [Hlen|(o & [=] & _)].
    eexists. split; [reflexivity|]. by repeat split.
Qed.

(** A state saved when the registry had two neurons, checked against the
    registry of six. *)
Lemma check_hotkeys_sized_example :
  let self :=
    set_scores (set_hotkeys (with_registry idle_validator example_registry)
                  (Some ["alice"; "bob"]))
      [0.4; 0.7] in
  (exists old_hotkeys,
     hotkeys self = Some old_hotkeys /\ old_hotkeys <> [] /\
     length (scores self) = length old_hotkeys) /\
  exists self',
    check_hotkeys self = (Ok (), self') /\ length (scores self') = 6%nat.
Proof.
  intros self.
  assert (Hsized : exists old_hotkeys,
            hotkeys self = Some old_hotkeys /\ old_hotkeys <> [] /\
            length (scores self) = length old_hotkeys).
  { exists ["alice"; "bob"]. by repeat split. }
  split; [exact Hsized|].
  destruct (check_hotkeys_sized self (or_intror Hsized))
    as (self' & Hrun & Hlen & _).
  exists self'. split; [exact Hrun|exact Hlen].
Defined.

(** X23. Starting over.  After [load_state] on a state file that fails to
    load, or without a state file, [check_hotkeys] returns, and the validator
    then has a score of 0 for every registered hotkey and the registered
    hotkeys as its snapshot. *)
Theorem load_state_then_check_hotkeys (self : Validator) (fs : gmap string File)
    (now : Z) :
  (forall file, fs !! state_path self = Some file -> corrupted file) ->
  exists self' self'' fs',
    load_state self fs now = (Ok (), self', fs') /\
    check_hotkeys self' = (Ok (), self'') /\
    scores self'' = replicate (length (Metagraph.hotkeys (metagraph self))) 0 /\
    hotkeys self'' = Some (Metagraph.hotkeys (metagraph self)).
Proof.
  intros Hbad.
  assert (Hload : exists self' fs',
            load_state self fs now = (Ok (), self', fs') /\
            metagraph self' = metagraph self /\
            scores self' = replicate (length (Metagraph.hotkeys (metagraph self))) 0).
  { unfold load_state.
    destruct (fs !! state_path self) as [file|] eqn:Hfile.
    - pose proof (load_state_try_metagraph self file) as Hm.
      destruct (load_state_try_corrupted self file (Hbad file eq_refl))
        as (e & self1 & Htry).
      rewrite Htry in Hm |- *. simpl in Hm.
      destruct (reset_validator_state_spec self1 fs (state_path self) now file Hfile)
        as (self' & -> & Hscores & _ & _ & _ & _ & Hm').
      exists self'. eexists. split; [reflexivity|].
      split; [congruence|]. by rewrite Hscores, Hm.
    - eexists _, _. split; [reflexivity|]. split; [done|].
      simpl. by rewrite length_metagraph_S. }
  destruct Hload as (self' & fs' & Hload & Hm & Hzero).
  exists self'. rewrite <- Hm in Hzero |- *.
  set (current := Metagraph.hotkeys (metagraph self')) in *.
  unfold check_hotkeys. fold current.
  destruct (hotkeys self') as [[|h old]|] eqn:Hsnap.
  - eexists _, fs'. split; [exact Hload|]. split; [reflexivity|]. by split.
  - destruct (decide (length (h :: old) = length current)) as [Hsame|Hdiff].
    + destruct (reset_replaced_spec (h :: old) (enumerate current) (scores self'))
        as (scores' & Hrun & Hlen' & Hcase & _).
      { intros i k Hik. apply elem_of_enumerate, lookup_lt_Some in Hik.
        rewrite Hzero, length_replicate. split; [lia|].
        apply lookup_lt_is_Some. lia. }
      rewrite Hrun. eexists _, fs'. split; [exact Hload|].
      split; [reflexivity|]. simpl. split; [|done].
      rewrite Hzero in Hlen', Hcase. rewrite length_replicate in Hlen'.
      apply list_eq. intros i.
      destruct (decide (i < length current)%nat) as [Hi|Hi].
      * rewrite lookup_replicate_2 by done.
        destruct (Hcase i) as [E|E]; [|done].
        by rewrite E, lookup_replicate_2.
      * rewrite (proj1 (lookup_replicate_None _ _ _)) by lia.
        apply lookup_ge_None. lia.
    + eexists _, fs'. split; [exact Hload|]. split; [reflexivity|]. simpl.
      by rewrite length_metagraph_S.
  - eexists _, fs'. split; [exact Hload|]. split; [reflexivity|]. by split.
Qed.

(** A validator with scores, restarted over a state file cut short. *)
Lemma load_state_then_check_hotkeys_example :
  let self :=
    set_scores
      (set_hotkeys
         (with_registry idle_validator
            [neuron 0 1 "10.0.0.1" "alice"; neuron 1 1 "10.0.0.2" "bob"])
         (Some ["alice"; "zed"]))
      [0.4; 0.7] in
  let fs : gmap string File := {[ "/validator/state.pt" := Garbage "truncated" ]} in
  (forall file, fs !! state_path self = Some file -> corrupted file) /\
  exists self' self'' fs',
    load_state self fs 1700000000 = (Ok (), self', fs') /\
    check_hotkeys self' = (Ok (), self'') /\
    scores self'' = [0; 0] /\ hotkeys self'' = Some ["alice"; "bob"].
Proof.
  intros self fs.
  assert (Hbad : forall file, fs !! state_path self = Some file -> corrupted file).
  { intros file Hfile.
    assert (Hthe : fs !! state_path self = Some (Garbage "truncated"))
      by (by vm_compute).
    rewrite Hthe in Hfile. by injection Hfile as <-. }
  split; [exact Hbad|].
  exact (load_state_then_check_hotkeys self fs 1700000000 Hbad).
Defined.
